(** * Insight service: scoring and selection of cognitive strengths and weaknesses

    Shallow embedding of [src/components/profile/services/insightService.ts].

    JavaScript numbers are modelled as real numbers ([R]): every arithmetic
    operation of the source is read as the exact operation on reals, which
    covers the finite values a JSON row can carry.  That reading serves for
    what holds of whatever number is computed (bounds, counts, orderings of
    the computed scores).  Where rounding decides a result, the pattern
    analysis is given a second time in [Doubles], on IEEE binary64 values.
    Objects used as dictionaries ([Record<string, ...>]) are [gmap string _]
    holding their own properties; arrays are lists.  The asynchronous top-level function is written in a small
    trace-and-exception monad over a record of collaborator answers. *)

From Stdlib Require Import Reals Lra Lia Sorted.
From Stdlib Require Uint63 PrimFloat.
From stdpp Require Import gmap strings list fin_maps pretty.

Local Open Scope R_scope.

(** ** Deciding comparisons on numbers *)

#[global] Instance Rlt_decision (x y : R) : Decision (x < y) := Rlt_dec x y.
#[global] Instance Rgt_decision (x y : R) : Decision (x > y) := Rgt_dec x y.
#[global] Instance Rle_decision (x y : R) : Decision (x <= y) := Rle_dec x y.
#[global] Instance Rge_decision (x y : R) : Decision (x >= y) := Rge_dec x y.
#[global] Instance Req_decision : EqDecision R := Req_dec_T.

(** ** Data model *)

Record Insight := mkInsight {
  area : string;
  description : string
}.

Record UserInsights := mkUserInsights {
  id : option string;
  strengths : list Insight;
  weaknesses : list Insight;
  generalInsight : string;
  createdAt : option string;
  assessmentId : option string
}.

Record AssessmentData := mkAssessmentData {
  assessment_id : string;
  completed_at : string;
  creativity_score : R;
  problem_solving : R;
  pattern_recognition : R;
  focus_duration : R;
  task_switching : R;
  emotional_regulation : R;
  organization : R;
  time_awareness : R
}.

Inductive Feedback := helpful | not_helpful.

(** [feedback : 'helpful' | 'not-helpful' | null]: [None] is [null]. *)
Record TechniqueInteraction := mkTechniqueInteraction {
  technique_id : string;
  technique_title : string;
  feedback : option Feedback;
  created_at : string
}.

#[global] Instance Feedback_eq_dec : EqDecision Feedback.
Proof. solve_decision. Defined.

(** The eight keys of [AssessmentData] that hold a cognitive dimension. *)
Inductive CognitiveField :=
  | f_creativity_score | f_problem_solving | f_pattern_recognition
  | f_focus_duration | f_task_switching | f_emotional_regulation
  | f_organization | f_time_awareness.

#[global] Instance CognitiveField_eq_dec : EqDecision CognitiveField.
Proof. solve_decision. Defined.

(** The property name, as written in the source. *)
Definition field_name (f : CognitiveField) : string :=
  match f with
  | f_creativity_score => "creativity_score"
  | f_problem_solving => "problem_solving"
  | f_pattern_recognition => "pattern_recognition"
  | f_focus_duration => "focus_duration"
  | f_task_switching => "task_switching"
  | f_emotional_regulation => "emotional_regulation"
  | f_organization => "organization"
  | f_time_awareness => "time_awareness"
  end.

(** [a[field as keyof AssessmentData] as number] *)
Definition get_field (f : CognitiveField) (a : AssessmentData) : R :=
  match f with
  | f_creativity_score => creativity_score a
  | f_problem_solving => problem_solving a
  | f_pattern_recognition => pattern_recognition a
  | f_focus_duration => focus_duration a
  | f_task_switching => task_switching a
  | f_emotional_regulation => emotional_regulation a
  | f_organization => organization a
  | f_time_awareness => time_awareness a
  end.

Inductive Trend := improving | declining | stable.

#[global] Instance Trend_eq_dec : EqDecision Trend.
Proof. solve_decision. Defined.

Record Pattern := mkPattern {
  average : R;
  trend : Trend;
  consistency : R
}.

(** ** analyzeHistoricalPatterns *)

Definition cognitiveFields : list CognitiveField :=
  [ f_creativity_score; f_problem_solving; f_pattern_recognition;
    f_focus_duration; f_task_switching; f_emotional_regulation;
    f_organization; f_time_awareness ].

(** [values.reduce((sum, val) => sum + val, 0)] *)
Definition reduce_sum (values : list R) : R :=
  foldl (fun sum val => sum + val) 0 values.

(** [values.reduce((sum, val) => sum + Math.pow(val - average, 2), 0)] *)
Definition reduce_sq_dev (average : R) (values : list R) : R :=
  foldl (fun sum val => sum + (val - average) ^ 2) 0 values.

(** The body of the [forEach] callback, for one field. *)
Definition field_pattern (assessments : list AssessmentData)
    (field : CognitiveField) : Pattern :=
  let values := map (get_field field) assessments in
  let average := reduce_sum values / INR (length values) in
  let trend :=
    if decide (4 <= length values)%nat then
      let midPoint := (length values / 2)%nat in
      let firstHalf := take midPoint values in
      let secondHalf := drop midPoint values in
      let firstAvg := reduce_sum firstHalf / INR (length firstHalf) in
      let secondAvg := reduce_sum secondHalf / INR (length secondHalf) in
      if decide (secondAvg > firstAvg + 5) then improving
      else if decide (secondAvg < firstAvg - 5) then declining
      else stable
    else stable in
  let variance := reduce_sq_dev average values / INR (length values) in
  let consistency := Rmax 0 (100 - sqrt variance) in
  {| average := average; trend := trend; consistency := consistency |}.

Definition analyzeHistoricalPatterns (assessments : list AssessmentData)
    : gmap string Pattern :=
  if decide (length assessments = 0%nat) then ∅
  else
    foldl (fun patterns field =>
             <[field_name field := field_pattern assessments field]> patterns)
          ∅ cognitiveFields.

(** ** analyzeTechniquePatterns *)

Record TechniqueStats := mkTechniqueStats {
  ts_helpful : nat;
  ts_notHelpful : nat;
  ts_totalInteractions : nat;
  ts_categories : list string
}.

(** The property names every plain object inherits from
    [Object.prototype].  Reading [techniqueStats[key]] for one of them finds
    the inherited member (a function, or the prototype itself for
    [__proto__]) when the object has no own entry under that key. *)
Definition object_prototype_names : list string :=
  [ "constructor"; "__defineGetter__"; "__defineSetter__"; "hasOwnProperty";
    "__lookupGetter__"; "__lookupSetter__"; "isPrototypeOf";
    "propertyIsEnumerable"; "toString"; "valueOf"; "__proto__";
    "toLocaleString" ]%string.

(** The three increments on the entry of the record's technique. *)
Definition count_interaction (interaction : TechniqueInteraction)
    (s : TechniqueStats) : TechniqueStats :=
  let s := mkTechniqueStats (ts_helpful s) (ts_notHelpful s)
             (S (ts_totalInteractions s)) (ts_categories s) in
  let s := if decide (feedback interaction = Some helpful)
           then mkTechniqueStats (S (ts_helpful s)) (ts_notHelpful s)
                  (ts_totalInteractions s) (ts_categories s)
           else s in
  if decide (feedback interaction = Some not_helpful)
  then mkTechniqueStats (ts_helpful s) (S (ts_notHelpful s))
         (ts_totalInteractions s) (ts_categories s)
  else s.

(** One iteration of the [forEach], on the own entries of [techniqueStats].
    An own entry is bumped in place.  Without one, [techniqueStats[key]] is
    [undefined] for an ordinary key, so the entry is created and bumped; for
    a name inherited from [Object.prototype] it is the inherited member,
    which is truthy: no entry is created, the increments land on that member
    (where [undefined++] leaves NaN) and the own entries stay as they are. *)
Definition record_interaction (techniqueStats : gmap string TechniqueStats)
    (interaction : TechniqueInteraction) : gmap string TechniqueStats :=
  let key := technique_id interaction in
  match techniqueStats !! key with
  | Some s => <[key := count_interaction interaction s]> techniqueStats
  | None =>
      if decide (key ∈ object_prototype_names) then techniqueStats
      else <[key := count_interaction interaction (mkTechniqueStats 0 0 0 [])]>
             techniqueStats
  end.

(** The own entries of the object returned. *)
Definition analyzeTechniquePatterns (interactions : list TechniqueInteraction)
    : gmap string TechniqueStats :=
  foldl record_interaction ∅ interactions.

(** ** calculatePriorityScore *)

(** One element of the [cognitiveAreas] array. *)
Record CognitiveArea := mkCognitiveArea {
  ca_field : CognitiveField;
  ca_value : R;
  ca_pattern : option Pattern;
  ca_area : string;
  ca_strengthDescription : string;
  ca_growthDescription : string
}.

(** The second parameter ([patterns]) is never read by the source; it is
    kept for the shape of the call. *)
Definition calculatePriorityScore (item : CognitiveArea)
    (patterns : gmap string Pattern) (allAssessments : list AssessmentData) : R :=
  let score := ca_value item in
  let score :=
    match ca_pattern item with
    | Some pattern =>
        let score :=
          if decide (trend pattern = improving) then score + 15
          else if decide (trend pattern = declining) then score - 10
          else score in
        let score :=
          if decide (consistency pattern > 80) then score + 8
          else if decide (consistency pattern < 40) then score - 5
          else score in
        if decide (average pattern = 0) then score
        else
          let historicalWeight := Rmin (INR (length allAssessments) / 10) (3 / 10) in
          score * (1 - historicalWeight) + average pattern * historicalWeight
    | None => score
    end in
  let score :=
    if decide (1 < length allAssessments)%nat then
      let recentTrend := map (get_field (ca_field item)) (take 3 allAssessments) in
      if decide (2 <= length recentTrend)%nat then
        let recentChange :=
          nth 0 recentTrend 0 - nth (length recentTrend - 1) recentTrend 0 in
        score + recentChange * (2 / 10)
      else score
    else score in
  Rmax 0 (Rmin 100 score).

(** ** Array.prototype.sort with a comparator

    The sort is stable; an element moves in front of another only when the
    comparator returns a positive number for the pair in their current
    order.  For a comparator that is a consistent ordering this determines
    the result.  The strengths comparator of the source is not one (its
    first branch is a threshold test), so for it the order is the one of this
    insertion procedure; the statements below about strengths only use that
    sorting permutes. *)

Fixpoint sort_insert {A : Type} (cmp : A -> A -> R) (x : A) (l : list A) : list A :=
  match l with
  | [] => [x]
  | y :: l' => if decide (cmp x y <= 0) then x :: l else y :: sort_insert cmp x l'
  end.

Definition js_sort {A : Type} (cmp : A -> A -> R) (l : list A) : list A :=
  foldr (sort_insert cmp) [] l.

(** ** Selection of strengths and weaknesses *)

Definition STRENGTH_THRESHOLD : R := 70.

Record ScoredArea := mkScoredArea {
  sa_item : CognitiveArea;
  priorityScore : R;
  isStrength : bool;
  isWeakness : bool
}.

Definition cognitiveAreas (latestAssessment : AssessmentData)
    (historicalPatterns : gmap string Pattern) : list CognitiveArea :=
  [ mkCognitiveArea f_creativity_score (creativity_score latestAssessment)
      (historicalPatterns !! "creativity_score") "Creativity"
      "You excel at generating original ideas and thinking outside the box."
      "Focus on developing creative thinking and innovative problem-solving approaches.";
    mkCognitiveArea f_problem_solving (problem_solving latestAssessment)
      (historicalPatterns !! "problem_solving") "Problem Solving"
      "You demonstrate strong abilities in finding solutions to complex challenges."
      "Work on developing systematic approaches to problem-solving and analytical thinking.";
    mkCognitiveArea f_pattern_recognition (pattern_recognition latestAssessment)
      (historicalPatterns !! "pattern_recognition") "Pattern Recognition"
      "You can easily identify connections and patterns where others might not see them."
      "Practice identifying patterns and connections in information and experiences.";
    mkCognitiveArea f_focus_duration (focus_duration latestAssessment)
      (historicalPatterns !! "focus_duration") "Focus Duration"
      "You maintain excellent concentration for extended periods."
      "Improve your ability to maintain concentration for extended periods.";
    mkCognitiveArea f_task_switching (task_switching latestAssessment)
      (historicalPatterns !! "task_switching") "Task Switching"
      "You transition smoothly between different activities while maintaining focus."
      "Work on transitioning between different activities smoothly without losing focus.";
    mkCognitiveArea f_emotional_regulation (emotional_regulation latestAssessment)
      (historicalPatterns !! "emotional_regulation") "Emotional Regulation"
      "You manage emotional responses effectively in challenging situations."
      "Develop strategies to better manage emotional responses to stressors.";
    mkCognitiveArea f_organization (organization latestAssessment)
      (historicalPatterns !! "organization") "Organization"
      "You maintain excellent organization in tasks, environment, and information."
      "Create systems to better organize your tasks, environment, and information.";
    mkCognitiveArea f_time_awareness (time_awareness latestAssessment)
      (historicalPatterns !! "time_awareness") "Time Awareness"
      "You have strong skills in estimating and managing time effectively."
      "Build skills to better estimate and manage time for various activities." ].

Definition scoredAreas (latestAssessment : AssessmentData)
    (historicalPatterns : gmap string Pattern)
    (allAssessments : list AssessmentData) : list ScoredArea :=
  map (fun item =>
         let priorityScore :=
           calculatePriorityScore item historicalPatterns allAssessments in
         {| sa_item := item;
            priorityScore := priorityScore;
            isStrength := bool_decide (priorityScore >= STRENGTH_THRESHOLD);
            isWeakness := bool_decide (priorityScore < STRENGTH_THRESHOLD) |})
      (cognitiveAreas latestAssessment historicalPatterns).

(** [x.pattern?.consistency || 0] *)
Definition consistency_or_0 (x : ScoredArea) : R :=
  match ca_pattern (sa_item x) with
  | Some p => if decide (consistency p = 0) then 0 else consistency p
  | None => 0
  end.

Definition strength_cmp (a b : ScoredArea) : R :=
  if decide (Rabs (priorityScore a - priorityScore b) > 5)
  then priorityScore b - priorityScore a
  else consistency_or_0 b - consistency_or_0 a.

(** [x.pattern?.trend === 'improving' ? 10 : 0] *)
Definition improvement (x : ScoredArea) : R :=
  match ca_pattern (sa_item x) with
  | Some p => if decide (trend p = improving) then 10 else 0
  | None => 0
  end.

(** [aScore] / [bScore] of the weakness comparator. *)
Definition adjusted_score (x : ScoredArea) : R :=
  priorityScore x + improvement x.

Definition weakness_cmp (a b : ScoredArea) : R :=
  adjusted_score a - adjusted_score b.

Definition ranked_strengths (scored : list ScoredArea) : list ScoredArea :=
  take 3 (js_sort strength_cmp (filter (fun x => isStrength x = true) scored)).

Definition ranked_weaknesses (scored : list ScoredArea) : list ScoredArea :=
  take 3 (js_sort weakness_cmp (filter (fun x => isWeakness x = true) scored)).

Definition strength_insight (x : ScoredArea) : Insight :=
  {| area := ca_area (sa_item x);
     description := ca_strengthDescription (sa_item x) |}.

Definition growth_insight (x : ScoredArea) : Insight :=
  {| area := ca_area (sa_item x);
     description := ca_growthDescription (sa_item x) |}.

Definition potentialStrengths (scored : list ScoredArea) : list Insight :=
  map strength_insight (ranked_strengths scored).

Definition potentialWeaknesses (scored : list ScoredArea) : list Insight :=
  map growth_insight (ranked_weaknesses scored).

(** ** Collaborators, trace and exceptions *)

(** What a query of the data store resolves to: [{ data, error }]. *)
Record Response (A : Type) := mkResponse {
  data : option A;
  error : option string
}.
Arguments mkResponse {A} _ _.
Arguments data {A} _.
Arguments error {A} _.

(** A row of [technique_interactions] as it comes back, before the type
    guard: any column may be [null], and [feedback] is any string. *)
Record RawInteraction := mkRawInteraction {
  raw_technique_id : option string;
  raw_technique_title : option string;
  raw_feedback : option string;
  raw_created_at : option string
}.

(** The row handed to [insert] on [user_insight_history]. *)
Record InsightRow := mkInsightRow {
  row_user_id : string;
  row_general_insight : string;
  row_strengths : list Insight;
  row_weaknesses : list Insight;
  row_assessment_id : string
}.

Record SavedInsight := mkSavedInsight {
  saved_id : string;
  saved_created_at : string
}.

(** Everything outside the function that it consults. [format_date] is
    [format(new Date(s), 'dd/MM/yyyy')] of date-fns, which throws on an
    invalid date ([None]); [math_random] is the value of [Math.random()];
    [current_hour] is [new Date().getHours()]. *)
Record World := mkWorld {
  select_assessments : string -> Response (list AssessmentData);
  select_interactions : string -> Response (list (option RawInteraction));
  insert_insight : InsightRow -> Response SavedInsight;
  format_date : string -> option string;
  math_random : R;
  current_hour : nat
}.

Inductive Event :=
  | QueryAssessments (userId : string)
  | QueryInteractions (userId : string)
  | InsertInsight (row : InsightRow)
  | ConsoleError (message : string).

Inductive Outcome (A : Type) :=
  | Returned (a : A)
  | Thrown (message : string).
Arguments Returned {A} _.
Arguments Thrown {A} _.

(** A computation extends the trace of events and returns or throws. *)
Definition Eff (A : Type) : Type := list Event -> Outcome A * list Event.

Definition ret {A} (a : A) : Eff A := fun t => (Returned a, t).

Definition throw {A} (message : string) : Eff A := fun t => (Thrown message, t).

Definition bind {A B} (m : Eff A) (k : A -> Eff B) : Eff B :=
  fun t =>
    match m t with
    | (Returned a, t') => k a t'
    | (Thrown e, t') => (Thrown e, t')
    end.

Definition emit (e : Event) : Eff unit := fun t => (Returned tt, t ++ [e]).

Definition try_catch {A} (body : Eff A) (handler : string -> Eff A) : Eff A :=
  fun t =>
    match body t with
    | (Returned a, t') => (Returned a, t')
    | (Thrown e, t') => handler e t'
    end.

Definition when (b : bool) (m : Eff unit) : Eff unit :=
  if b then m else ret tt.

Notation "'do' x <- m ; k" := (bind m (fun x => k))
  (at level 10, x name, m at level 100, k at level 200).
Notation "'run' m ; k" := (bind m (fun _ => k))
  (at level 10, m at level 100, k at level 200).

Definition exec {A} (m : Eff A) : Outcome A * list Event := m [].

(** ** The type guard on interaction rows *)

Definition parse_feedback (s : option string) : option (option Feedback) :=
  match s with
  | None => Some None
  | Some "helpful"%string => Some (Some helpful)
  | Some "not-helpful"%string => Some (Some not_helpful)
  | Some _ => None
  end.

Definition valid_interaction (row : option RawInteraction)
    : option TechniqueInteraction :=
  match row with
  | Some r =>
      match raw_technique_id r, raw_technique_title r,
            parse_feedback (raw_feedback r), raw_created_at r with
      | Some tid, Some title, Some fb, Some created =>
          Some (mkTechniqueInteraction tid title fb created)
      | _, _, _, _ => None
      end
  | None => None
  end.

(** ** The narrative *)

Fixpoint join (sep : string) (l : list string) : string :=
  match l with
  | [] => ""
  | [x] => x
  | x :: l' => x +:+ sep +:+ join sep l'
  end.

(** [Object.entries(historicalPatterns)]: the keys are exactly the field
    names, inserted in the order of [cognitiveFields]. *)
Definition pattern_entries (historicalPatterns : gmap string Pattern)
    : list (CognitiveField * Pattern) :=
  omap (fun f => pair f <$> historicalPatterns !! field_name f) cognitiveFields.

Definition improvingAreas (areas : list CognitiveArea)
    (historicalPatterns : gmap string Pattern) : list string :=
  filter (fun s => s <> ""%string)
    (omap (fun '(field, pattern) =>
             if decide (trend pattern = improving)
             then ca_area <$> find (fun a => bool_decide (ca_field a = field)) areas
             else None)
          (pattern_entries historicalPatterns)).

Definition helpfulTechniques (techniquePatterns : gmap string TechniqueStats) : nat :=
  length (filter (fun '(_, stats) =>
                    (ts_notHelpful stats < ts_helpful stats)%nat
                    /\ (0 < ts_helpful stats)%nat)
                 (map_to_list techniquePatterns)).

Definition plural (n : nat) : string :=
  if decide (1 < n)%nat then "s" else "".

Definition insightTemplates (assessmentCount : nat) (formattedDate : string)
    (strengthsPhrase weaknessesPhrase patternPhrase techniquePhrase : string)
    : list string :=
  [ "Based on " +:+ pretty assessmentCount +:+ " assessment"
      +:+ plural assessmentCount +:+ " and your latest results from "
      +:+ formattedDate +:+ ", " +:+ strengthsPhrase +:+ ". "
      +:+ weaknessesPhrase +:+ "." +:+ patternPhrase +:+ techniquePhrase;
    "Your journey shows that " +:+ strengthsPhrase +:+ ", with data from "
      +:+ pretty assessmentCount +:+ " assessment" +:+ plural assessmentCount
      +:+ " including " +:+ formattedDate +:+ ". To continue growing, "
      +:+ weaknessesPhrase +:+ "." +:+ patternPhrase +:+ techniquePhrase;
    "Analysis of your " +:+ pretty assessmentCount +:+ " assessment"
      +:+ plural assessmentCount +:+ " (latest: " +:+ formattedDate
      +:+ ") reveals " +:+ strengthsPhrase +:+ ". For optimal progress, "
      +:+ weaknessesPhrase +:+ "." +:+ patternPhrase +:+ techniquePhrase ].

(** [Math.floor(r * n)] for a non-negative [r]. *)
Definition random_index (r : R) (n : nat) : nat :=
  Z.to_nat (Int_part (r * INR n)).

Definition compose_insight (w : World) (formattedDate : string)
    (assessmentCount : nat) (areas : list CognitiveArea)
    (historicalPatterns : gmap string Pattern)
    (techniquePatterns : gmap string TechniqueStats)
    (strengths weaknesses : list Insight) : string :=
  let timeContext : string :=
    if decide (current_hour w < 12)%nat then "morning"
    else if decide (current_hour w < 18)%nat then "afternoon" else "evening" in
  let improving_areas := improvingAreas areas historicalPatterns in
  let helpful_techniques := helpfulTechniques techniquePatterns in
  let strengthsPhrase :=
    if decide (0 < length strengths)%nat
    then "your key strengths are " +:+ join ", " (map area strengths)
    else "you're developing strengths across multiple areas" in
  let weaknessesPhrase :=
    if decide (0 < length weaknesses)%nat
    then "focusing on " +:+ join ", " (map area weaknesses)
           +:+ " will help you progress further"
    else "you're performing well across all assessed areas" in
  let patternPhrase :=
    if decide (0 < length improving_areas)%nat
    then " Your " +:+ join " and " improving_areas +:+ " "
           +:+ (if decide (1 < length improving_areas)%nat then "are" else "is")
           +:+ " showing positive trends over time."
    else "" in
  let techniquePhrase :=
    if decide (0 < helpful_techniques)%nat
    then " Based on your interactions, you've found "
           +:+ pretty helpful_techniques +:+ " technique"
           +:+ plural helpful_techniques +:+ " particularly helpful."
    else "" in
  let templates :=
    insightTemplates assessmentCount formattedDate strengthsPhrase
      weaknessesPhrase patternPhrase techniquePhrase in
  default ""%string (templates !! random_index (math_random w) (length templates)).

(** ** getStrengthsAndWeaknesses *)

Definition no_assessment_insights : UserInsights :=
  {| id := None; strengths := []; weaknesses := [];
     generalInsight := "Complete an assessment to see personalized insights.";
     createdAt := None; assessmentId := None |}.

Definition fallback_insights : UserInsights :=
  {| id := None; strengths := []; weaknesses := [];
     generalInsight :=
       "We're having trouble analyzing your data. Please try again later.";
     createdAt := None; assessmentId := None |}.

(** The part of the [try] block after the empty check: [allAssessments] is
    the fetched array and [latestAssessment] its first element. *)
Definition analyze_and_save (w : World) (userId : string)
    (latestAssessment : AssessmentData) (allAssessments : list AssessmentData)
    : Eff UserInsights :=
  run emit (QueryInteractions userId);
  let interactions := select_interactions w userId in
  run when (bool_decide (is_Some (error interactions)))
        (emit (ConsoleError "Error fetching technique interactions:"));
  let historicalPatterns := analyzeHistoricalPatterns allAssessments in
  let techniquePatterns :=
    analyzeTechniquePatterns
      (omap valid_interaction (default [] (data interactions))) in
  let areas := cognitiveAreas latestAssessment historicalPatterns in
  let scored := scoredAreas latestAssessment historicalPatterns allAssessments in
  let strengths := take 3 (potentialStrengths scored) in
  let weaknesses := take 3 (potentialWeaknesses scored) in
  match format_date w (completed_at latestAssessment) with
  | None => throw "Invalid time value"
  | Some formattedDate =>
      let generalInsight :=
        compose_insight w formattedDate (length allAssessments) areas
          historicalPatterns techniquePatterns strengths weaknesses in
      let insightToSave :=
        {| row_user_id := userId;
           row_general_insight := generalInsight;
           row_strengths := strengths;
           row_weaknesses := weaknesses;
           row_assessment_id := assessment_id latestAssessment |} in
      run emit (InsertInsight insightToSave);
      let saved := insert_insight w insightToSave in
      run when (bool_decide (is_Some (error saved)))
            (emit (ConsoleError "Error saving insight history:"));
      ret {| id := saved_id <$> data saved;
             strengths := strengths;
             weaknesses := weaknesses;
             generalInsight := generalInsight;
             createdAt := saved_created_at <$> data saved;
             assessmentId := Some (assessment_id latestAssessment) |}
  end.

Definition getStrengthsAndWeaknesses (w : World) (userId : string)
    : Eff UserInsights :=
  try_catch
    (run emit (QueryAssessments userId);
     let assessments := select_assessments w userId in
     if bool_decide (is_Some (error assessments)) then
       run emit (ConsoleError "Error fetching assessment data:");
       throw "Failed to fetch assessment data"
     else
       match data assessments with
       | None | Some [] => ret no_assessment_insights
       | Some (latestAssessment :: rest) =>
           analyze_and_save w userId latestAssessment (latestAssessment :: rest)
       end)
    (fun _ =>
       run emit (ConsoleError "Error in getStrengthsAndWeaknesses:");
       ret fallback_insights).

(** ** analyzeHistoricalPatterns in double precision

    The same function with its numbers as IEEE binary64 values, which is
    what the engine computes with: sums, quotients and the two threshold
    tests round as the code's do.  [Math.pow] is only required by the
    language to approximate the power, so the square it returns is a
    parameter; [Math.sqrt] is the correctly rounded square root. *)
Module Doubles.
Import PrimFloat.

Record AssessmentData := mkAssessmentData {
  assessment_id : string;
  completed_at : string;
  creativity_score : float;
  problem_solving : float;
  pattern_recognition : float;
  focus_duration : float;
  task_switching : float;
  emotional_regulation : float;
  organization : float;
  time_awareness : float
}.

Definition get_field (f : CognitiveField) (a : AssessmentData) : float :=
  match f with
  | f_creativity_score => creativity_score a
  | f_problem_solving => problem_solving a
  | f_pattern_recognition => pattern_recognition a
  | f_focus_duration => focus_duration a
  | f_task_switching => task_switching a
  | f_emotional_regulation => emotional_regulation a
  | f_organization => organization a
  | f_time_awareness => time_awareness a
  end.

Record Pattern := mkPattern {
  average : float;
  trend : Trend;
  consistency : float
}.

(** An array length as a number (exact below 2^53). *)
Definition number_of_nat (n : nat) : float :=
  PrimFloat.of_uint63 (Uint63.of_Z (Z.of_nat n)).

(** [Math.max(a, b)]: NaN if either is NaN, and +0 above -0. *)
Definition Math_max (a b : float) : float :=
  if (PrimFloat.is_nan a || PrimFloat.is_nan b)%bool then PrimFloat.nan
  else if PrimFloat.ltb a b then b
  else if PrimFloat.ltb b a then a
  else if PrimFloat.get_sign a then b else a.

(** [values.reduce((sum, val) => sum + val, 0)] *)
Definition reduce_sum (values : list float) : float :=
  foldl (fun sum val => PrimFloat.add sum val) 0%float values.

Section MathPow.
Variable Math_pow_2 : float -> float.

(** [values.reduce((sum, val) => sum + Math.pow(val - average, 2), 0)] *)
Definition reduce_sq_dev (average : float) (values : list float) : float :=
  foldl (fun sum val => PrimFloat.add sum (Math_pow_2 (PrimFloat.sub val average)))
        0%float values.

(** The body of the [forEach] callback, for one field. *)
Definition field_pattern (assessments : list AssessmentData)
    (field : CognitiveField) : Pattern :=
  let values := map (get_field field) assessments in
  let average := PrimFloat.div (reduce_sum values) (number_of_nat (length values)) in
  let trend :=
    if decide (4 <= length values)%nat then
      let midPoint := (length values / 2)%nat in
      let firstHalf := take midPoint values in
      let secondHalf := drop midPoint values in
      let firstAvg :=
        PrimFloat.div (reduce_sum firstHalf) (number_of_nat (length firstHalf)) in
      let secondAvg :=
        PrimFloat.div (reduce_sum secondHalf) (number_of_nat (length secondHalf)) in
      if PrimFloat.ltb (PrimFloat.add firstAvg 5%float) secondAvg then improving
      else if PrimFloat.ltb secondAvg (PrimFloat.sub firstAvg 5%float) then declining
      else stable
    else stable in
  let variance :=
    PrimFloat.div (reduce_sq_dev average values) (number_of_nat (length values)) in
  let consistency :=
    Math_max 0%float (PrimFloat.sub 100%float (PrimFloat.sqrt variance)) in
  {| average := average; trend := trend; consistency := consistency |}.

Definition analyzeHistoricalPatterns (assessments : list AssessmentData)
    : gmap string Pattern :=
  if decide (length assessments = 0%nat) then ∅
  else
    foldl (fun patterns field =>
             <[field_name field := field_pattern assessments field]> patterns)
          ∅ cognitiveFields.

(** The quantities of the amended statement: the mean of a list as the
    engine computes it, the sum taken from left to right, and the trend
    decided on such means. *)
Definition double_mean (values : list float) : float :=
  PrimFloat.div (reduce_sum values) (number_of_nat (length values)).

Definition double_trend (values : list float) : Trend :=
  if decide (length values < 4)%nat then stable
  else
    let first_half := take (length values / 2) values in
    let second_half := drop (length values / 2) values in
    if PrimFloat.ltb (PrimFloat.add (double_mean first_half) 5%float)
                     (double_mean second_half) then improving
    else if PrimFloat.ltb (double_mean second_half)
                          (PrimFloat.sub (double_mean first_half) 5%float)
    then declining
    else stable.

Definition double_pattern (values : list float) : Pattern :=
  {| average := double_mean values;
     trend := double_trend values;
     consistency :=
       Math_max 0%float
         (PrimFloat.sub 100%float
            (PrimFloat.sqrt
               (double_mean
                  (map (fun v => Math_pow_2 (PrimFloat.sub v (double_mean values)))
                       values)))) |}.
End MathPow.

(** Records with the given creativity scores, every other dimension at 50. *)
Definition creativity_records (scores : list Z) : list AssessmentData :=
  map (fun z =>
         let c := PrimFloat.of_uint63 (Uint63.of_Z z) in
         mkAssessmentData "1" "2024-01-01" c 50 50 50 50 50 50 50)
      scores.

(** The square as the product, one admissible [Math.pow(x, 2)]. *)
Definition square (x : float) : float := PrimFloat.mul x x.

(** Six creativity scores, newest first, whose half means 182/3 and 197/3
    differ by exactly 5; and six whose half means 17/3 and 2/3 do. *)
Definition boundary_scores : list Z := [77; 20; 85; 54; 90; 53]%Z.

Definition boundary_scores_down : list Z := [6; 6; 5; 1; 1; 0]%Z.

End Doubles.

(** ** getInsightHistory *)

(** A value of a JSON column, as the client hands it over. *)
#[warnings="-register-all"]
Inductive Json :=
  | JNull
  | JBool (b : bool)
  | JNum (x : R)
  | JStr (s : string)
  | JArr (items : list Json)
  | JObj (fields : list (string * Json)).

(** A row of [user_insight_history]. *)
Record HistoryRow := mkHistoryRow {
  hr_id : string;
  hr_general_insight : string;
  hr_strengths : Json;
  hr_weaknesses : Json;
  hr_created_at : string;
  hr_assessment_id : option string
}.

(** What [getInsightHistory] builds for a row.  The source casts the kept
    entries to [Insight[]] without converting them, so they stay the stored
    values. *)
Record StoredInsights := mkStoredInsights {
  si_id : string;
  si_generalInsight : string;
  si_strengths : list Json;
  si_weaknesses : list Json;
  si_createdAt : string;
  si_assessmentId : option string
}.

(** ['k' in s] for a plain object. *)
Definition has_key (k : string) (fields : list (string * Json)) : bool :=
  bool_decide (k ∈ fields.*1).

(** [s && typeof s === 'object' && 'area' in s && 'description' in s]: an
    array is an object too, but has neither key. *)
Definition insight_shaped (s : Json) : bool :=
  match s with
  | JObj fields => has_key "area" fields && has_key "description" fields
  | _ => false
  end.

(** [Array.isArray(x) ? x.filter(...) : []] *)
Definition keep_insights (x : Json) : list Json :=
  match x with
  | JArr items => filter (fun s => insight_shaped s = true) items
  | _ => []
  end.

Definition reshape_row (item : HistoryRow) : StoredInsights :=
  {| si_id := hr_id item;
     si_generalInsight := hr_general_insight item;
     si_strengths := keep_insights (hr_strengths item);
     si_weaknesses := keep_insights (hr_weaknesses item);
     si_createdAt := hr_created_at item;
     si_assessmentId := hr_assessment_id item |}.

(** [select_history userId limit] is what the query on
    [user_insight_history] resolves to.  With [data] null and no error,
    [history.map] raises a TypeError, which the [catch] absorbs like any
    other. *)
Definition getInsightHistory
    (select_history : string -> nat -> Response (list HistoryRow))
    (userId : string) : Eff (list StoredInsights) :=
  try_catch
    (let response := select_history userId 10%nat in
     match error response with
     | Some e =>
         run emit (ConsoleError "Error fetching insight history:");
         throw e
     | None =>
         match data response with
         | Some history => ret (map reshape_row history)
         | None => throw "TypeError: Cannot read properties of null"
         end
     end)
    (fun _ =>
       run emit (ConsoleError "Error in getInsightHistory:");
       ret []).

(** The stored form of an [Insight]: the object with its two string
    properties. *)
Definition insight_json (i : Insight) : Json :=
  JObj [("area"%string, JStr (area i)); ("description"%string, JStr (description i))].

(** The row as it comes back when the query selects the columns the guard
    reads, for a well-typed interaction. *)
Definition raw_of_interaction (i : TechniqueInteraction) : RawInteraction :=
  {| raw_technique_id := Some (technique_id i);
     raw_technique_title := Some (technique_title i);
     raw_feedback :=
       match feedback i with
       | Some helpful => Some "helpful"%string
       | Some not_helpful => Some "not-helpful"%string
       | None => None
       end;
     raw_created_at := Some (created_at i) |}.

(** How a saved insight reads back: the generated id and timestamp, and the
    inserted columns with the two lists as JSON arrays of objects. *)
Definition stored_row (saved : SavedInsight) (row : InsightRow) : HistoryRow :=
  {| hr_id := saved_id saved;
     hr_general_insight := row_general_insight row;
     hr_strengths := JArr (map insight_json (row_strengths row));
     hr_weaknesses := JArr (map insight_json (row_weaknesses row));
     hr_created_at := saved_created_at saved;
     hr_assessment_id := Some (row_assessment_id row) |}.

(** The selections and the row to insert, as [getStrengthsAndWeaknesses]
    computes them from the fetched assessments. *)
Definition selected_strengths (latest : AssessmentData)
    (all : list AssessmentData) : list Insight :=
  take 3 (potentialStrengths (scoredAreas latest (analyzeHistoricalPatterns all) all)).

Definition selected_weaknesses (latest : AssessmentData)
    (all : list AssessmentData) : list Insight :=
  take 3 (potentialWeaknesses (scoredAreas latest (analyzeHistoricalPatterns all) all)).

Definition composed_insight (w : World) (userId formatted : string)
    (latest : AssessmentData) (all : list AssessmentData) : string :=
  compose_insight w formatted (length all)
    (cognitiveAreas latest (analyzeHistoricalPatterns all))
    (analyzeHistoricalPatterns all)
    (analyzeTechniquePatterns
       (omap valid_interaction (default [] (data (select_interactions w userId)))))
    (selected_strengths latest all) (selected_weaknesses latest all).

Definition insight_to_save (w : World) (userId formatted : string)
    (latest : AssessmentData) (all : list AssessmentData) : InsightRow :=
  {| row_user_id := userId;
     row_general_insight := composed_insight w userId formatted latest all;
     row_strengths := selected_strengths latest all;
     row_weaknesses := selected_weaknesses latest all;
     row_assessment_id := assessment_id latest |}.

Definition is_insert (e : Event) : bool :=
  match e with InsertInsight _ => true | _ => false end.

(** ** Quantities used to state the properties *)

(** The sum of a list, by recursion on it. *)
Fixpoint total (l : list R) : R :=
  match l with
  | [] => 0
  | x :: l' => x + total l'
  end.

(** The quantities of the specification, in its own words. *)

Definition mean (values : list R) : R := total values / INR (length values).

Definition population_std_dev (values : list R) : R :=
  sqrt (total (map (fun v => (v - mean values) ^ 2) values) / INR (length values)).

Definition claimed_trend (values : list R) : Trend :=
  if decide (length values < 4)%nat then stable
  else
    let first_half := take (length values / 2) values in
    let second_half := drop (length values / 2) values in
    if decide (mean second_half - mean first_half > 5) then improving
    else if decide (mean first_half - mean second_half > 5) then declining
    else stable.

Definition claimed_pattern (values : list R) : Pattern :=
  {| average := mean values;
     trend := claimed_trend values;
     consistency := Rmax 0 (100 - population_std_dev values) |}.

(** The records of one technique, and how many of them carry a given
    feedback. *)
Definition interactions_of (tid : string) (l : list TechniqueInteraction)
    : list TechniqueInteraction :=
  filter (fun i => technique_id i = tid) l.

Definition count_feedback (fb : option Feedback) (tid : string)
    (l : list TechniqueInteraction) : nat :=
  length (filter (fun i => feedback i = fb) (interactions_of tid l)).

Definition area_name (x : ScoredArea) : string := ca_area (sa_item x).

(** The ranking key of the weaknesses in the words of the specification:
    the priority score, plus 10 when the pattern that the analysis holds for
    the dimension has an improving trend. *)
Definition claimed_adjusted_key (patterns : gmap string Pattern)
    (x : ScoredArea) : R :=
  priorityScore x
  + match patterns !! field_name (ca_field (sa_item x)) with
    | Some p => if decide (trend p = improving) then 10 else 0
    | None => 0
    end.

(** ** Sample data *)

Definition sample_assessment (v_creativity v_other : R) : AssessmentData :=
  {| assessment_id := "1"; completed_at := "2024-01-01";
     creativity_score := v_creativity; problem_solving := v_other;
     pattern_recognition := v_other; focus_duration := v_other;
     task_switching := v_other; emotional_regulation := v_other;
     organization := v_other; time_awareness := v_other |}.

(** The first entry of [cognitiveAreas] for the single record with 85. *)
Definition sample_creativity_area : CognitiveArea :=
  mkCognitiveArea f_creativity_score 85
    (analyzeHistoricalPatterns [sample_assessment 85 80] !! "creativity_score")
    "Creativity"
    "You excel at generating original ideas and thinking outside the box."
    "Focus on developing creative thinking and innovative problem-solving approaches.".

(** One valid record whose technique identifier is [constructor]. *)
Definition constructor_interactions : list TechniqueInteraction :=
  [ mkTechniqueInteraction "constructor" "Building blocks" (Some helpful) "2024-01-04" ].

Definition sample_interactions : list TechniqueInteraction :=
  [ mkTechniqueInteraction "t1" "Box breathing" (Some helpful) "2024-01-03";
    mkTechniqueInteraction "t2" "Pomodoro" (Some not_helpful) "2024-01-02";
    mkTechniqueInteraction "t1" "Box breathing" None "2024-01-01" ].

(** A world in the manner of the repository's test doubles: the assessment
    query answers [assessments], there are no interactions, and the insert
    answers with a fixed row. *)
Definition sample_world (assessments : Response (list AssessmentData)) : World :=
  {| select_assessments := fun _ => assessments;
     select_interactions := fun _ => mkResponse (Some []) None;
     insert_insight :=
       fun _ => mkResponse (Some (mkSavedInsight "test-id" "2024-01-01")) None;
     format_date := fun _ => Some "01/01/2024"%string;
     math_random := 0;
     current_hour := 9 |}.

Definition failing_world : World :=
  sample_world (mkResponse None (Some "connection refused"%string)).

Definition empty_world : World := sample_world (mkResponse (Some []) None).

Definition high_world : World :=
  sample_world (mkResponse (Some [sample_assessment 85 80]) None).

Definition low_world : World :=
  sample_world (mkResponse (Some [sample_assessment 45 30; sample_assessment 50 35]) None).

Definition low_latest : AssessmentData := sample_assessment 45 30.
Definition low_rest : list AssessmentData := [sample_assessment 50 35].
Definition low_scored : list ScoredArea :=
  scoredAreas low_latest (analyzeHistoricalPatterns (low_latest :: low_rest))
    (low_latest :: low_rest).

(** Variants of the sample world: the insert is refused; the date of the
    latest record does not parse; the interactions query fails and the random
    draw and the clock differ. *)
Definition save_failing_world : World :=
  {| select_assessments := select_assessments high_world;
     select_interactions := select_interactions high_world;
     insert_insight := fun _ => mkResponse None (Some "insert refused"%string);
     format_date := format_date high_world;
     math_random := math_random high_world;
     current_hour := current_hour high_world |}.

Definition bad_date_world : World :=
  {| select_assessments := select_assessments high_world;
     select_interactions := select_interactions high_world;
     insert_insight := insert_insight high_world;
     format_date := fun _ => None;
     math_random := math_random high_world;
     current_hour := current_hour high_world |}.

Definition degraded_world : World :=
  {| select_assessments := select_assessments low_world;
     select_interactions := fun _ => mkResponse None (Some "timeout"%string);
     insert_insight := fun _ => mkResponse None (Some "insert refused"%string);
     format_date := fun _ => Some "02/01/2024"%string;
     math_random := 1 / 2;
     current_hour := 20 |}.

(** A history holding one saved insight. *)
Definition sample_saves : list (SavedInsight * InsightRow) :=
  [ (mkSavedInsight "test-id" "2024-01-01",
     mkInsightRow "user-1" "Your journey shows progress."
       [mkInsight "Creativity"
          "You excel at generating original ideas and thinking outside the box."]
       [mkInsight "Organization"
          "Create systems to better organize your tasks, environment, and information."]
       "1") ].

Definition sample_history (userId : string) (limit : nat)
    : Response (list HistoryRow) :=
  mkResponse (Some (map (fun p => stored_row p.1 p.2) sample_saves)) None.


(** Adding the counters of two statistics of one technique. *)
Definition add_stats (a b : TechniqueStats) : TechniqueStats :=
  {| ts_helpful := ts_helpful a + ts_helpful b;
     ts_notHelpful := ts_notHelpful a + ts_notHelpful b;
     ts_totalInteractions := ts_totalInteractions a + ts_totalInteractions b;
     ts_categories := ts_categories a ++ ts_categories b |}.

(** The same area with another latest value, or another trend in its
    pattern. *)
Definition with_value (item : CognitiveArea) (v : R) : CognitiveArea :=
  mkCognitiveArea (ca_field item) v (ca_pattern item) (ca_area item)
    (ca_strengthDescription item) (ca_growthDescription item).

Definition with_trend (item : CognitiveArea) (t : Trend) : CognitiveArea :=
  mkCognitiveArea (ca_field item) (ca_value item)
    ((fun p => mkPattern (average p) t (consistency p)) <$> ca_pattern item)
    (ca_area item) (ca_strengthDescription item) (ca_growthDescription item).

(** One record with two high dimensions ten points apart. *)
Definition two_high_assessment : AssessmentData :=
  {| assessment_id := "7"; completed_at := "2024-02-01";
     creativity_score := 90; problem_solving := 80;
     pattern_recognition := 30; focus_duration := 30;
     task_switching := 30; emotional_regulation := 30;
     organization := 30; time_awareness := 30 |}.

Definition two_high_world : World :=
  sample_world (mkResponse (Some [two_high_assessment]) None).

Definition two_high_scored : list ScoredArea :=
  scoredAreas two_high_assessment (analyzeHistoricalPatterns [two_high_assessment])
    [two_high_assessment].

(** Four records, newest first, in which creativity went from 50 to 30
    while every other dimension stayed at 40: in supplied order the second
    half is the higher one, so the trend of creativity is improving. *)
Definition improving_assessments : list AssessmentData :=
  [ sample_assessment 30 40; sample_assessment 30 40;
    sample_assessment 50 40; sample_assessment 50 40 ].

Definition improving_world : World :=
  sample_world (mkResponse (Some improving_assessments) None).

Definition improving_scored : list ScoredArea :=
  scoredAreas (sample_assessment 30 40)
    (analyzeHistoricalPatterns improving_assessments) improving_assessments.

(** * Properties *)

(** ** Sums written as [reduce] *)

Lemma foldl_plus_shift (g : R -> R) (l : list R) (acc : R) :
  foldl (fun sum val => sum + g val) acc l = acc + total (map g l).
Proof.
  revert acc. induction l as [|x l IH]; intros acc; simpl.
  - lra.
  - rewrite IH. lra.
Qed.

Lemma reduce_sum_total (l : list R) : reduce_sum l = total l.
Proof.
  unfold reduce_sum.
  rewrite (foldl_plus_shift (fun v => v) l 0), map_id. lra.
Qed.

Lemma reduce_sq_dev_total (avg : R) (l : list R) :
  reduce_sq_dev avg l = total (map (fun v => (v - avg) ^ 2) l).
Proof.
  unfold reduce_sq_dev. rewrite (foldl_plus_shift (fun v => (v - avg) ^ 2) l 0). lra.
Qed.

(** ** The sort permutes, and sorts when the comparator is a difference of keys *)

Section Sorting.
Context {A : Type} (cmp : A -> A -> R).

Lemma sort_insert_perm (x : A) (l : list A) : sort_insert cmp x l ≡ₚ x :: l.
Proof.
  induction l as [|y l IH]; simpl; [done|].
  case_decide; [done|].
  rewrite IH. apply Permutation_swap.
Qed.

Lemma js_sort_perm (l : list A) : js_sort cmp l ≡ₚ l.
Proof.
  induction l as [|x l IH]; simpl; [done|].
  rewrite sort_insert_perm. by f_equiv.
Qed.

Lemma js_sort_length (l : list A) : length (js_sort cmp l) = length l.
Proof. apply Permutation_length, js_sort_perm. Qed.

Lemma js_sort_elem_of (x : A) (l : list A) : x ∈ js_sort cmp l <-> x ∈ l.
Proof. by rewrite js_sort_perm. Qed.
End Sorting.

Section SortingByKey.
Context {A : Type} (key : A -> R).

Let by_key (a b : A) : R := key a - key b.
Let key_le (a b : A) : Prop := key a <= key b.

Lemma sort_insert_sorted (x : A) (l : list A) :
  StronglySorted key_le l -> StronglySorted key_le (sort_insert by_key x l).
Proof.
  induction 1 as [|y l Hl IH Hy]; simpl.
  - repeat constructor.
  - case_decide as Hc; unfold by_key in Hc.
    + constructor; [by constructor|].
      constructor; [unfold key_le; lra|].
      eapply Forall_impl; [exact Hy|]. unfold key_le. intros z Hz. lra.
    + constructor; [exact IH|].
      rewrite sort_insert_perm. constructor; [unfold key_le; lra | exact Hy].
Qed.

Lemma js_sort_sorted (l : list A) : StronglySorted key_le (js_sort by_key l).
Proof.
  induction l as [|x l IH]; simpl; [constructor|].
  by apply sort_insert_sorted.
Qed.
End SortingByKey.

Lemma StronglySorted_app_le {A : Type} (R_ : A -> A -> Prop) (l1 l2 : list A) :
  StronglySorted R_ (l1 ++ l2) ->
  forall x y, x ∈ l1 -> y ∈ l2 -> R_ x y.
Proof.
  induction l1 as [|a l1 IH]; simpl; intros Hs x y Hx Hy.
  - by apply elem_of_nil in Hx.
  - apply StronglySorted_inv in Hs as [Hs Ha].
    apply elem_of_cons in Hx as [->|Hx].
    + rewrite Forall_forall in Ha. apply Ha. apply elem_of_app. by right.
    + by apply IH.
Qed.

(** ** Historical patterns *)

Lemma analyzeHistoricalPatterns_nil : analyzeHistoricalPatterns [] = ∅.
Proof. reflexivity. Qed.

Lemma analyzeHistoricalPatterns_lookup (assessments : list AssessmentData)
    (f : CognitiveField) :
  assessments <> [] ->
  analyzeHistoricalPatterns assessments !! field_name f
  = Some (field_pattern assessments f).
Proof.
  intros Hne. unfold analyzeHistoricalPatterns.
  case_decide as Hlen.
  - destruct assessments; [done | discriminate Hlen].
  - unfold cognitiveFields. cbn [foldl].
    destruct f; cbn [field_name]; by simplify_map_eq.
Qed.

(** Every key of the pattern map is read back by [cognitiveAreas] under the
    literal property name. *)
Lemma cognitiveAreas_shape (latest : AssessmentData) (pats : gmap string Pattern) :
  map (fun c => (ca_field c, ca_value c, ca_pattern c)) (cognitiveAreas latest pats)
  = map (fun f => (f, get_field f latest, pats !! field_name f)) cognitiveFields.
Proof. reflexivity. Qed.

Lemma field_pattern_claimed (assessments : list AssessmentData) (f : CognitiveField) :
  field_pattern assessments f = claimed_pattern (map (get_field f) assessments).
Proof.
  unfold field_pattern, claimed_pattern.
  set (values := map (get_field f) assessments).
  f_equal.
  - unfold mean. by rewrite reduce_sum_total.
  - unfold claimed_trend, mean. rewrite !reduce_sum_total.
    repeat case_decide; try reflexivity; try lia; lra.
  - unfold population_std_dev, mean.
    by rewrite reduce_sq_dev_total, reduce_sum_total.
Qed.

Lemma field_pattern_single (a : AssessmentData) (f : CognitiveField) :
  field_pattern [a] f
  = {| average := get_field f a; trend := stable; consistency := 100 |}.
Proof.
  unfold field_pattern. cbn [map length].
  rewrite decide_False by lia.
  unfold reduce_sum, reduce_sq_dev. cbn [foldl INR].
  replace ((0 + get_field f a) / 1) with (get_field f a) by lra.
  replace ((0 + (get_field f a - get_field f a) ^ 2) / 1) with 0 by lra.
  rewrite sqrt_0.
  f_equal. unfold Rmax. destruct (Rle_dec 0 (100 - 0)); lra.
Qed.

(** ** The priority score *)



Lemma calculatePriorityScore_single (item : CognitiveArea)
    (patterns : gmap string Pattern) (a : AssessmentData) :
  ca_pattern item
  = Some {| average := ca_value item; trend := stable; consistency := 100 |} ->
  calculatePriorityScore item patterns [a]
  = Rmax 0 (Rmin 100
      (if decide (ca_value item = 0) then ca_value item + 8
       else (ca_value item + 8) * (9 / 10) + ca_value item * (1 / 10))).
Proof.
  intros Hp. unfold calculatePriorityScore. rewrite Hp. cbn [trend consistency average length].
  rewrite (decide_False (P := (1 < 1)%nat)) by lia.
  rewrite (decide_False (P := stable = improving)) by discriminate.
  rewrite (decide_False (P := stable = declining)) by discriminate.
  rewrite (decide_True (P := 100 > 80)) by lra.
  case_decide; [reflexivity|].
  cbn [INR]. replace (Rmin (1 / 10) (3 / 10)) with (1 / 10).
  - do 2 f_equal. lra.
  - unfold Rmin. destruct (Rle_dec (1 / 10) (3 / 10)); lra.
Qed.

Lemma single_record_lookup (a : AssessmentData) (f : CognitiveField) :
  analyzeHistoricalPatterns [a] !! field_name f
  = Some {| average := get_field f a; trend := stable; consistency := 100 |}.
Proof.
  rewrite analyzeHistoricalPatterns_lookup by discriminate.
  by rewrite field_pattern_single.
Qed.

Lemma single_record_area (a : AssessmentData) (item : CognitiveArea) :
  item ∈ cognitiveAreas a (analyzeHistoricalPatterns [a]) ->
  ca_pattern item
  = Some {| average := ca_value item; trend := stable; consistency := 100 |}
  /\ calculatePriorityScore item (analyzeHistoricalPatterns [a]) [a]
     = Rmax 0 (Rmin 100
         (if decide (ca_value item = 0) then ca_value item + 8
          else (ca_value item + 8) * (9 / 10) + ca_value item * (1 / 10))).
Proof.
  intros Hin.
  assert (Hp : ca_pattern item
    = Some {| average := ca_value item; trend := stable; consistency := 100 |}).
  { unfold cognitiveAreas in Hin.
    repeat (apply elem_of_cons in Hin as [->|Hin]); cbn [ca_pattern ca_value];
      [ apply (single_record_lookup a f_creativity_score)
      | apply (single_record_lookup a f_problem_solving)
      | apply (single_record_lookup a f_pattern_recognition)
      | apply (single_record_lookup a f_focus_duration)
      | apply (single_record_lookup a f_task_switching)
      | apply (single_record_lookup a f_emotional_regulation)
      | apply (single_record_lookup a f_organization)
      | apply (single_record_lookup a f_time_awareness) | ].
    by apply elem_of_nil in Hin. }
  split; [exact Hp|].
  by apply calculatePriorityScore_single.
Qed.

(** C10: with exactly one assessment record every dimension has a pattern,
    whose average is the record's value, whose trend is stable and whose
    consistency is exactly 100; hence in [calculatePriorityScore] the
    consistency bonus of 8 applies, and for a nonzero value so does the
    historical blend, with weight 1/10. *)
Theorem single_record_pattern_and_score (a : AssessmentData) :
  (forall f : CognitiveField,
     analyzeHistoricalPatterns [a] !! field_name f
     = Some {| average := get_field f a; trend := stable; consistency := 100 |})
  /\ (forall item : CognitiveArea,
        item ∈ cognitiveAreas a (analyzeHistoricalPatterns [a]) ->
        ca_pattern item
        = Some {| average := ca_value item; trend := stable; consistency := 100 |}
        /\ calculatePriorityScore item (analyzeHistoricalPatterns [a]) [a]
           = Rmax 0 (Rmin 100
               (if decide (ca_value item = 0) then ca_value item + 8
                else (ca_value item + 8) * (9 / 10) + ca_value item * (1 / 10)))).
Proof.
  split.
  - apply single_record_lookup.
  - apply single_record_area.
Qed.

Lemma single_record_pattern_and_score_witness :
  sample_creativity_area
    ∈ cognitiveAreas (sample_assessment 85 80)
        (analyzeHistoricalPatterns [sample_assessment 85 80])
  /\ calculatePriorityScore sample_creativity_area
       (analyzeHistoricalPatterns [sample_assessment 85 80]) [sample_assessment 85 80]
     = Rmax 0 (Rmin 100
         (if decide (ca_value sample_creativity_area = 0)
          then ca_value sample_creativity_area + 8
          else (ca_value sample_creativity_area + 8) * (9 / 10)
               + ca_value sample_creativity_area * (1 / 10))).
Proof.
  split; [apply list_elem_of_here|].
  apply (proj2 (single_record_pattern_and_score (sample_assessment 85 80))
           sample_creativity_area).
  apply list_elem_of_here.
Defined.

(** ** Technique statistics *)

Lemma analyzeTechniquePatterns_snoc (l : list TechniqueInteraction)
    (x : TechniqueInteraction) :
  analyzeTechniquePatterns (l ++ [x])
  = record_interaction (analyzeTechniquePatterns l) x.
Proof. unfold analyzeTechniquePatterns. by rewrite foldl_app. Qed.

Lemma interactions_of_snoc (tid : string) (l : list TechniqueInteraction)
    (x : TechniqueInteraction) :
  interactions_of tid (l ++ [x])
  = interactions_of tid l ++ (if decide (technique_id x = tid) then [x] else []).
Proof.
  unfold interactions_of. rewrite filter_app. f_equal.
Qed.

Lemma count_feedback_snoc (fb : option Feedback) (tid : string)
    (l : list TechniqueInteraction) (x : TechniqueInteraction) :
  count_feedback fb tid (l ++ [x])
  = (count_feedback fb tid l
     + (if decide (technique_id x = tid /\ feedback x = fb) then 1 else 0))%nat.
Proof.
  unfold count_feedback. rewrite interactions_of_snoc, filter_app, length_app.
  f_equal.
  destruct (decide (technique_id x = tid)) as [Ht|Ht].
  - rewrite filter_cons, filter_nil.
    destruct (decide (feedback x = fb)) as [Hf|Hf].
    + by rewrite decide_True.
    + rewrite decide_False; [done | tauto].
  - rewrite filter_nil, decide_False; [done | tauto].
Qed.

Ltac decide_conj :=
  repeat match goal with
  | |- context [decide (?a = ?a /\ ?p = ?q)] =>
      first [ rewrite (decide_True (P := a = a /\ p = q)) by done
            | rewrite (decide_False (P := a = a /\ p = q))
                by (intros [_ ?]; discriminate) ]
  end.

Ltac decide_closed :=
  repeat first [ rewrite decide_True by done
               | rewrite decide_False by discriminate ].

(** What the returned object holds under a key, in closed form. *)
Lemma analyzeTechniquePatterns_lookup (l : list TechniqueInteraction) (tid : string) :
  analyzeTechniquePatterns l !! tid
  = if decide (tid ∈ object_prototype_names) then None
    else if decide (length (interactions_of tid l) = 0%nat) then None
    else Some {| ts_helpful := count_feedback (Some helpful) tid l;
                 ts_notHelpful := count_feedback (Some not_helpful) tid l;
                 ts_totalInteractions := length (interactions_of tid l);
                 ts_categories := [] |}.
Proof.
  induction l as [|x l IH] using rev_ind.
  - by repeat case_decide.
  - rewrite analyzeTechniquePatterns_snoc, !count_feedback_snoc,
      interactions_of_snoc, length_app.
    unfold record_interaction.
    destruct (decide (technique_id x = tid)) as [Heq|Hne].
    + subst tid. rewrite IH.
      destruct (decide (technique_id x ∈ object_prototype_names)) as [Hin|Hout].
      { by rewrite IH. }
      cbn [length].
      rewrite (decide_False (P := (_ + 1)%nat = 0%nat)) by lia.
      destruct (decide (length (interactions_of (technique_id x) l) = 0%nat)) as [Hz|Hz].
      * assert (Hh : forall fb, count_feedback fb (technique_id x) l = 0%nat).
        { intros fb. unfold count_feedback.
          apply length_zero_iff_nil in Hz. by rewrite Hz. }
        rewrite lookup_insert_eq, !Hh, Hz. unfold count_interaction.
        destruct (feedback x) as [[]|]; decide_conj; decide_closed; reflexivity.
      * rewrite lookup_insert_eq. unfold count_interaction.
        destruct (feedback x) as [[]|]; decide_conj; decide_closed; cbn;
          do 2 f_equal; lia.
    + transitivity (analyzeTechniquePatterns l !! tid).
      { destruct (analyzeTechniquePatterns l !! technique_id x) eqn:Hown.
        - by rewrite lookup_insert_ne.
        - destruct (decide (technique_id x ∈ object_prototype_names));
            [done | by rewrite lookup_insert_ne]. }
      rewrite IH. cbn [length]. rewrite Nat.add_0_r.
      repeat match goal with
      | |- context [decide (technique_id x = tid /\ ?q)] =>
          rewrite (decide_False (P := technique_id x = tid /\ q)) by tauto
      end.
      by rewrite !Nat.add_0_r.
Qed.

Lemma interactions_of_split (tid : string) (l : list TechniqueInteraction) :
  length (interactions_of tid l)
  = (count_feedback (Some helpful) tid l + count_feedback (Some not_helpful) tid l
     + count_feedback None tid l)%nat.
Proof.
  unfold count_feedback.
  induction (interactions_of tid l) as [|x l' IH]; [reflexivity|].
  rewrite !filter_cons. cbn [length]. rewrite IH.
  destruct (feedback x) as [[]|]; repeat case_decide; try done; cbn [length]; lia.
Qed.

Lemma analyzeTechniquePatterns_perm (l l' : list TechniqueInteraction) :
  l ≡ₚ l' -> analyzeTechniquePatterns l = analyzeTechniquePatterns l'.
Proof.
  intros Hp. apply map_eq. intros tid.
  rewrite !analyzeTechniquePatterns_lookup.
  assert (Hof : interactions_of tid l ≡ₚ interactions_of tid l')
    by (by apply filter_Permutation).
  assert (Hc : forall fb, count_feedback fb tid l = count_feedback fb tid l').
  { intros fb. unfold count_feedback.
    apply Permutation_length. by apply filter_Permutation. }
  by rewrite !Hc, (Permutation_length Hof).
Qed.

(** C7 (the code falls short of it): a technique whose identifier is a name
    inherited from [Object.prototype] gets no entry, although a record
    carries it.  For the single valid record with identifier [constructor]
    and feedback helpful, the claim asks for an entry with helpful 1,
    notHelpful 0 and totalInteractions 1; the mapping returned is empty. *)
Theorem analyzeTechniquePatterns_constructor_id :
  "constructor"%string ∈ map technique_id constructor_interactions
  /\ count_feedback (Some helpful) "constructor" constructor_interactions = 1%nat
  /\ count_feedback (Some not_helpful) "constructor" constructor_interactions = 0%nat
  /\ count_feedback None "constructor" constructor_interactions = 0%nat
  /\ analyzeTechniquePatterns constructor_interactions !! "constructor" = None
  /\ analyzeTechniquePatterns constructor_interactions = ∅.
Proof.
  split; [apply list_elem_of_here|].
  repeat split; vm_compute; reflexivity.
Qed.

(** X26: for every sequence of valid interaction records and every technique
    identifier that occurs in it and is not a name inherited from
    [Object.prototype], the mapping has an entry whose helpful count is the
    number of that technique's records with feedback helpful, whose
    notHelpful count is the number with feedback not-helpful, and whose
    totalInteractions is their sum plus the number with absent feedback; and
    any permutation of the input yields the same mapping. *)
Theorem analyzeTechniquePatterns_counts (interactions : list TechniqueInteraction)
    (tid : string) :
  tid ∈ map technique_id interactions ->
  tid ∉ object_prototype_names ->
  (exists stats,
     analyzeTechniquePatterns interactions !! tid = Some stats
     /\ ts_helpful stats = count_feedback (Some helpful) tid interactions
     /\ ts_notHelpful stats = count_feedback (Some not_helpful) tid interactions
     /\ ts_totalInteractions stats
        = (ts_helpful stats + ts_notHelpful stats
           + count_feedback None tid interactions)%nat)
  /\ (forall interactions', interactions ≡ₚ interactions' ->
        analyzeTechniquePatterns interactions' = analyzeTechniquePatterns interactions).
Proof.
  intros Hin Hown. split.
  - rewrite analyzeTechniquePatterns_lookup.
    rewrite (decide_False (P := tid ∈ object_prototype_names)) by done.
    case_decide as Hz.
    + exfalso. apply length_zero_iff_nil in Hz.
      apply list_elem_of_fmap in Hin as (i & -> & Hi).
      assert (Hi' : i ∈ interactions_of (technique_id i) interactions).
      { unfold interactions_of. apply list_elem_of_filter. by split. }
      rewrite Hz in Hi'. by apply elem_of_nil in Hi'.
    + eexists. split; [reflexivity|]. cbn.
      repeat split. apply interactions_of_split.
  - intros l' Hp. symmetry. by apply analyzeTechniquePatterns_perm.
Qed.

Lemma analyzeTechniquePatterns_counts_witness :
  ("t1"%string ∈ map technique_id sample_interactions)
  /\ ("t1"%string ∉ object_prototype_names)
  /\ (exists stats,
     analyzeTechniquePatterns sample_interactions !! "t1" = Some stats
     /\ ts_helpful stats = count_feedback (Some helpful) "t1" sample_interactions
     /\ ts_notHelpful stats
        = count_feedback (Some not_helpful) "t1" sample_interactions
     /\ ts_totalInteractions stats
        = (ts_helpful stats + ts_notHelpful stats
           + count_feedback None "t1" sample_interactions)%nat)
  /\ (forall interactions', sample_interactions ≡ₚ interactions' ->
        analyzeTechniquePatterns interactions'
        = analyzeTechniquePatterns sample_interactions).
Proof.
  assert (Hown : "t1"%string ∉ object_prototype_names).
  { apply (bool_decide_unpack _). vm_compute. exact I. }
  split; [apply list_elem_of_here|]. split; [exact Hown|].
  apply (analyzeTechniquePatterns_counts sample_interactions "t1");
    [apply list_elem_of_here | exact Hown].
Defined.

(** ** The top-level function: the three ways out *)

(** C4: when the fetch of the assessments answers with an error, the
    function returns exactly the fallback result: no strengths, no
    weaknesses, the fixed trouble message, and neither id, createdAt nor
    assessmentId.  Nothing of the analysis is produced: the trace holds the
    one query and the two log lines, no further query and no insert. *)
Theorem getStrengthsAndWeaknesses_fetch_error (w : World) (userId e : string) :
  error (select_assessments w userId) = Some e ->
  exec (getStrengthsAndWeaknesses w userId)
  = (Returned fallback_insights,
     [ QueryAssessments userId;
       ConsoleError "Error fetching assessment data:";
       ConsoleError "Error in getStrengthsAndWeaknesses:" ]).
Proof.
  intros He.
  unfold exec, getStrengthsAndWeaknesses, try_catch, bind, emit, throw, ret.
  rewrite He. reflexivity.
Qed.

(** C5: when the fetch succeeds with an absent or empty sequence, the
    function returns at once the empty lists with the fixed message asking to
    complete an assessment; the trace holds the assessment query alone, so the
    interactions are never fetched and nothing is inserted. *)
Theorem getStrengthsAndWeaknesses_no_assessment (w : World) (userId : string) :
  error (select_assessments w userId) = None ->
  data (select_assessments w userId) = None
  \/ data (select_assessments w userId) = Some [] ->
  exec (getStrengthsAndWeaknesses w userId)
  = (Returned no_assessment_insights, [QueryAssessments userId]).
Proof.
  intros He Hd.
  unfold exec, getStrengthsAndWeaknesses, try_catch, bind, emit, throw, ret.
  rewrite He. cbn.
  destruct Hd as [-> | ->]; reflexivity.
Qed.

(** The analysis path, in full: the result and the trace. *)
Lemma getStrengthsAndWeaknesses_run (w : World) (userId : string)
    (latest : AssessmentData) (rest : list AssessmentData) (formatted : string) :
  error (select_assessments w userId) = None ->
  data (select_assessments w userId) = Some (latest :: rest) ->
  format_date w (completed_at latest) = Some formatted ->
  let all := latest :: rest in
  let row := insight_to_save w userId formatted latest all in
  let saved := insert_insight w row in
  exec (getStrengthsAndWeaknesses w userId)
  = (Returned {| id := saved_id <$> data saved;
                 strengths := selected_strengths latest all;
                 weaknesses := selected_weaknesses latest all;
                 generalInsight := composed_insight w userId formatted latest all;
                 createdAt := saved_created_at <$> data saved;
                 assessmentId := Some (assessment_id latest) |},
     [QueryAssessments userId; QueryInteractions userId]
     ++ (if bool_decide (is_Some (error (select_interactions w userId)))
         then [ConsoleError "Error fetching technique interactions:"] else [])
     ++ [InsertInsight row]
     ++ (if bool_decide (is_Some (error saved))
         then [ConsoleError "Error saving insight history:"] else [])).
Proof.
  intros He Hd Hf all row saved.
  unfold exec, getStrengthsAndWeaknesses, analyze_and_save,
    try_catch, bind, emit, throw, ret.
  rewrite He, Hd.
  rewrite (bool_decide_eq_false_2 (is_Some None)) by (intros [? ?]; discriminate).
  rewrite Hf.
  fold all. fold (selected_strengths latest all). fold (selected_weaknesses latest all).
  fold (composed_insight w userId formatted latest all).
  fold (insight_to_save w userId formatted latest all). fold row. fold saved.
  destruct (bool_decide (is_Some (error (select_interactions w userId))));
    cbn [when emit ret];
    destruct (bool_decide (is_Some (error saved))); reflexivity.
Qed.

(** On the path where the assessments come back non-empty and the date of
    the latest one formats, the function returns the selections computed
    from the scored areas. *)
Lemma getStrengthsAndWeaknesses_analysis (w : World) (userId : string)
    (latest : AssessmentData) (rest : list AssessmentData) (formatted : string) :
  error (select_assessments w userId) = None ->
  data (select_assessments w userId) = Some (latest :: rest) ->
  format_date w (completed_at latest) = Some formatted ->
  let all := latest :: rest in
  let scored := scoredAreas latest (analyzeHistoricalPatterns all) all in
  exists r t,
    exec (getStrengthsAndWeaknesses w userId) = (Returned r, t)
    /\ strengths r = take 3 (potentialStrengths scored)
    /\ weaknesses r = take 3 (potentialWeaknesses scored)
    /\ assessmentId r = Some (assessment_id latest).
Proof.
  intros He Hd Hf all scored.
  do 2 eexists. split.
  - by apply (getStrengthsAndWeaknesses_run w userId latest rest formatted).
  - cbn [strengths weaknesses assessmentId]. by repeat split.
Qed.

(** ** Classification and selection *)

Section Selection.
Context (latest : AssessmentData) (pats : gmap string Pattern)
        (all : list AssessmentData).

Let scored := scoredAreas latest pats all.

Lemma scoredAreas_flags (x : ScoredArea) :
  x ∈ scored ->
  isStrength x = bool_decide (priorityScore x >= STRENGTH_THRESHOLD)
  /\ isWeakness x = bool_decide (priorityScore x < STRENGTH_THRESHOLD).
Proof.
  intros Hx. apply list_elem_of_fmap in Hx as (item & -> & _). by cbn.
Qed.

Lemma scoredAreas_exclusive (x : ScoredArea) :
  x ∈ scored -> isWeakness x = negb (isStrength x).
Proof.
  intros Hx. destruct (scoredAreas_flags x Hx) as [-> ->].
  repeat case_bool_decide; try reflexivity; lra.
Qed.

Lemma scoredAreas_names :
  map area_name scored
  = [ "Creativity"; "Problem Solving"; "Pattern Recognition"; "Focus Duration";
      "Task Switching"; "Emotional Regulation"; "Organization";
      "Time Awareness" ]%string.
Proof. reflexivity. Qed.

Lemma scoredAreas_length : length scored = 8%nat.
Proof. reflexivity. Qed.

Lemma scoredAreas_names_NoDup : NoDup (map area_name scored).
Proof.
  rewrite scoredAreas_names.
  apply (bool_decide_unpack _). by vm_compute.
Qed.

Lemma scoredAreas_name_inj (x y : ScoredArea) :
  x ∈ scored -> y ∈ scored -> area_name x = area_name y -> x = y.
Proof.
  pose proof scoredAreas_names_NoDup as Hnd. revert Hnd.
  generalize scored. intros l. induction l as [|z l IH]; intros Hnd Hx Hy Heq.
  - by apply elem_of_nil in Hx.
  - cbn in Hnd. apply NoDup_cons in Hnd as [Hz Hnd].
    apply elem_of_cons in Hx as [->|Hx]; apply elem_of_cons in Hy as [->|Hy].
    + reflexivity.
    + exfalso. apply Hz. rewrite Heq. by apply (list_elem_of_fmap_2 area_name).
    + exfalso. apply Hz. rewrite <- Heq. by apply (list_elem_of_fmap_2 area_name).
    + by apply IH.
Qed.

Lemma ranked_strengths_elem (x : ScoredArea) :
  x ∈ ranked_strengths scored -> x ∈ scored /\ isStrength x = true.
Proof.
  unfold ranked_strengths. intros Hx.
  apply subseteq_take, js_sort_elem_of, list_elem_of_filter in Hx. tauto.
Qed.

Lemma ranked_weaknesses_elem (x : ScoredArea) :
  x ∈ ranked_weaknesses scored -> x ∈ scored /\ isWeakness x = true.
Proof.
  unfold ranked_weaknesses. intros Hx.
  apply subseteq_take, js_sort_elem_of, list_elem_of_filter in Hx. tauto.
Qed.

Lemma final_strengths :
  take 3 (potentialStrengths scored) = map strength_insight (ranked_strengths scored).
Proof.
  unfold potentialStrengths, ranked_strengths.
  change (map strength_insight ?l) with (strength_insight <$> l).
  by rewrite <- fmap_take, take_take.
Qed.

Lemma final_weaknesses :
  take 3 (potentialWeaknesses scored) = map growth_insight (ranked_weaknesses scored).
Proof.
  unfold potentialWeaknesses, ranked_weaknesses.
  change (map growth_insight ?l) with (growth_insight <$> l).
  by rewrite <- fmap_take, take_take.
Qed.

Lemma strength_name_elem (name : string) :
  name ∈ map area (map strength_insight (ranked_strengths scored)) ->
  exists x, x ∈ ranked_strengths scored /\ area_name x = name.
Proof.
  intros Hn. apply list_elem_of_fmap in Hn as (i & -> & Hi).
  apply list_elem_of_fmap in Hi as (x & -> & Hx). by exists x.
Qed.

Lemma weakness_name_elem (name : string) :
  name ∈ map area (map growth_insight (ranked_weaknesses scored)) ->
  exists x, x ∈ ranked_weaknesses scored /\ area_name x = name.
Proof.
  intros Hn. apply list_elem_of_fmap in Hn as (i & -> & Hi).
  apply list_elem_of_fmap in Hi as (x & -> & Hx). by exists x.
Qed.

Lemma partition_lengths :
  (length (filter (fun x => isStrength x = true) scored)
   + length (filter (fun x => isWeakness x = true) scored) = 8)%nat.
Proof.
  rewrite <- scoredAreas_length.
  pose proof scoredAreas_exclusive as Hex. revert Hex.
  generalize scored. intros l. induction l as [|x l IH]; intros Hex; [reflexivity|].
  rewrite !filter_cons.
  rewrite (Hex x) by apply list_elem_of_here.
  assert (IH' := IH (fun y Hy => Hex y (list_elem_of_further _ _ _ Hy))).
  destruct (isStrength x); cbn [negb];
    decide_closed; cbn [length]; lia.
Qed.
End Selection.

(** ** Invariants of the result *)

(** C1: whenever the assessments come back non-empty and the analysis runs
    to its end, the result has at most three strengths and at most three
    weaknesses, every listed strength is a dimension whose priority score is
    at least 70 and every listed weakness one whose score is below 70, and no
    area name is in both lists. *)
Theorem strengths_weaknesses_bounded_disjoint (w : World) (userId : string)
    (latest : AssessmentData) (rest : list AssessmentData) (formatted : string) :
  error (select_assessments w userId) = None ->
  data (select_assessments w userId) = Some (latest :: rest) ->
  format_date w (completed_at latest) = Some formatted ->
  let all := latest :: rest in
  let scored := scoredAreas latest (analyzeHistoricalPatterns all) all in
  exists r t,
    exec (getStrengthsAndWeaknesses w userId) = (Returned r, t)
    /\ (length (strengths r) <= 3)%nat
    /\ (length (weaknesses r) <= 3)%nat
    /\ (forall name, name ∈ map area (strengths r) ->
          exists x, x ∈ scored /\ area_name x = name
                    /\ priorityScore x >= STRENGTH_THRESHOLD)
    /\ (forall name, name ∈ map area (weaknesses r) ->
          exists x, x ∈ scored /\ area_name x = name
                    /\ priorityScore x < STRENGTH_THRESHOLD)
    /\ (forall name, name ∈ map area (strengths r) ->
          name ∉ map area (weaknesses r)).
Proof.
  intros He Hd Hf all scored.
  destruct (getStrengthsAndWeaknesses_analysis w userId latest rest formatted He Hd Hf)
    as (r & t & Hrun & Hs & Hw & _).
  fold all in Hs, Hw. fold scored in Hs, Hw.
  unfold scored in Hs, Hw. rewrite final_strengths in Hs. rewrite final_weaknesses in Hw.
  fold scored in Hs, Hw.
  assert (HS : forall name, name ∈ map area (strengths r) ->
            exists x, x ∈ scored /\ area_name x = name
                      /\ priorityScore x >= STRENGTH_THRESHOLD).
  { intros name Hn. rewrite Hs in Hn.
    apply strength_name_elem in Hn as (x & Hx & Hname).
    apply ranked_strengths_elem in Hx as [Hx Hflag].
    exists x. repeat split; [done..|].
    destruct (scoredAreas_flags _ _ _ x Hx) as [Hst _].
    rewrite Hst in Hflag. by apply bool_decide_eq_true in Hflag. }
  assert (HW : forall name, name ∈ map area (weaknesses r) ->
            exists x, x ∈ scored /\ area_name x = name
                      /\ priorityScore x < STRENGTH_THRESHOLD).
  { intros name Hn. rewrite Hw in Hn.
    apply weakness_name_elem in Hn as (x & Hx & Hname).
    apply ranked_weaknesses_elem in Hx as [Hx Hflag].
    exists x. repeat split; [done..|].
    destruct (scoredAreas_flags _ _ _ x Hx) as [_ Hwk].
    rewrite Hwk in Hflag. by apply bool_decide_eq_true in Hflag. }
  exists r, t. split; [exact Hrun|].
  split; [rewrite Hs, length_map; unfold ranked_strengths; rewrite length_take; lia|].
  split; [rewrite Hw, length_map; unfold ranked_weaknesses; rewrite length_take; lia|].
  split; [exact HS|]. split; [exact HW|].
  intros name Hn1 Hn2.
  destruct (HS name Hn1) as (x & Hx & Hxn & Hxs).
  destruct (HW name Hn2) as (y & Hy & Hyn & Hys).
  assert (x = y) as ->.
  { apply (scoredAreas_name_inj latest (analyzeHistoricalPatterns all) all); try done.
    by rewrite Hxn, Hyn. }
  lra.
Qed.


Lemma filter_ext_elem {A : Type} (P Q : A -> Prop)
    `{!forall x, Decision (P x)} `{!forall x, Decision (Q x)} (l : list A) :
  (forall x, x ∈ l -> P x <-> Q x) -> filter P l = filter Q l.
Proof.
  induction l as [|x l IH]; intros Hpq; [reflexivity|].
  rewrite !filter_cons.
  rewrite IH by (intros y Hy; apply Hpq; by right).
  pose proof (Hpq x (list_elem_of_here _ _)).
  repeat case_decide; tauto.
Qed.

Lemma StronglySorted_ext_elem {A : Type} (R1 R2 : A -> A -> Prop) (l : list A) :
  (forall x y, x ∈ l -> y ∈ l -> R1 x y -> R2 x y) ->
  StronglySorted R1 l -> StronglySorted R2 l.
Proof.
  intros Himp Hs. induction Hs as [|a l Hl IH Ha]; [constructor|].
  constructor.
  - apply IH. intros x y Hx Hy. apply Himp; by right.
  - apply Forall_forall. intros y Hy. apply Himp; [by left | by right |].
    rewrite Forall_forall in Ha. by apply Ha.
Qed.

(** Each entry of [cognitiveAreas] carries the pattern stored under the name
    of its own field. *)
Lemma scoredAreas_pattern (latest : AssessmentData) (pats : gmap string Pattern)
    (all : list AssessmentData) (x : ScoredArea) :
  x ∈ scoredAreas latest pats all ->
  ca_pattern (sa_item x) = pats !! field_name (ca_field (sa_item x)).
Proof.
  intros Hx. apply list_elem_of_fmap in Hx as (item & -> & Hitem).
  cbn [sa_item]. unfold cognitiveAreas in Hitem.
  repeat (apply elem_of_cons in Hitem as [->|Hitem]); try reflexivity.
  by apply elem_of_nil in Hitem.
Qed.

(** The key the comparator sorts by is the one the specification names. *)
Lemma adjusted_score_claimed (latest : AssessmentData) (pats : gmap string Pattern)
    (all : list AssessmentData) (x : ScoredArea) :
  x ∈ scoredAreas latest pats all ->
  adjusted_score x = claimed_adjusted_key pats x.
Proof.
  intros Hx. unfold adjusted_score, improvement, claimed_adjusted_key.
  by rewrite (scoredAreas_pattern latest pats all x Hx).
Qed.

(** The weaknesses selected from a fetched sequence, as a prefix of the
    below-threshold dimensions in ascending order of the claimed key. *)
Lemma selected_weaknesses_order (latest : AssessmentData)
    (all : list AssessmentData) :
  let pats := analyzeHistoricalPatterns all in
  let scored := scoredAreas latest pats all in
  exists sorted,
    sorted ≡ₚ filter (fun x => priorityScore x < STRENGTH_THRESHOLD) scored
    /\ StronglySorted
         (fun a b => claimed_adjusted_key pats a <= claimed_adjusted_key pats b) sorted
    /\ selected_weaknesses latest all = map growth_insight (take 3 sorted)
    /\ (forall x y,
          x ∈ scored -> y ∈ scored ->
          priorityScore y < STRENGTH_THRESHOLD ->
          area_name x ∈ map area (selected_weaknesses latest all) ->
          area_name y ∉ map area (selected_weaknesses latest all) ->
          claimed_adjusted_key pats x <= claimed_adjusted_key pats y).
Proof.
  intros pats scored.
  assert (Hw : selected_weaknesses latest all
               = map growth_insight (ranked_weaknesses scored)).
  { unfold selected_weaknesses. apply final_weaknesses. }
  set (sorted := js_sort weakness_cmp (filter (fun x => isWeakness x = true) scored)).
  assert (Hperm : sorted ≡ₚ filter (fun x => priorityScore x < STRENGTH_THRESHOLD) scored).
  { unfold sorted. rewrite js_sort_perm.
    erewrite filter_ext_elem; [reflexivity|].
    intros x Hx. destruct (scoredAreas_flags _ _ _ x Hx) as [_ ->].
    apply bool_decide_eq_true. }
  assert (Hin : forall x, x ∈ sorted -> x ∈ scored).
  { intros x Hx. rewrite Hperm in Hx. by apply list_elem_of_filter in Hx as [_ ?]. }
  assert (Hsorted : StronglySorted
            (fun a b => claimed_adjusted_key pats a <= claimed_adjusted_key pats b) sorted).
  { apply (StronglySorted_ext_elem
             (fun a b => adjusted_score a <= adjusted_score b)).
    - intros x y Hx Hy.
      by rewrite !(adjusted_score_claimed latest pats all) by (by apply Hin).
    - apply (js_sort_sorted adjusted_score). }
  exists sorted. split; [exact Hperm|]. split; [exact Hsorted|]. split; [exact Hw|].
  intros x y Hx Hy Hylow Hxin Hyout.
  rewrite <- (take_drop 3 sorted) in Hsorted.
  apply (StronglySorted_app_le _ _ _ Hsorted).
  - rewrite Hw in Hxin.
    apply weakness_name_elem in Hxin as (x' & Hx' & Hname).
    assert (x' = x) as <-; [|exact Hx'].
    apply ranked_weaknesses_elem in Hx' as Hx''.
    apply (scoredAreas_name_inj latest pats all); [tauto | exact Hx | exact Hname].
  - assert (Hys : y ∈ sorted).
    { rewrite Hperm. apply list_elem_of_filter. by split. }
    rewrite <- (take_drop 3 sorted) in Hys.
    apply elem_of_app in Hys as [Hys|Hys]; [|exact Hys].
    exfalso. apply Hyout. rewrite Hw.
    change (area_name y) with (area (growth_insight y)).
    apply (list_elem_of_fmap_2 area).
    by apply (list_elem_of_fmap_2 growth_insight).
Qed.

(** C8: the weaknesses returned are the first three entries (all of them
    when fewer qualify) of the dimensions whose score is below the threshold,
    sorted ascending by the key priority score plus 10 when the dimension's
    pattern has an improving trend, and plus 0 otherwise; hence a
    below-threshold dimension left out of the list never has a smaller key
    than one that is in it. *)
Theorem weaknesses_lowest_adjusted (w : World) (userId : string)
    (latest : AssessmentData) (rest : list AssessmentData) (formatted : string) :
  error (select_assessments w userId) = None ->
  data (select_assessments w userId) = Some (latest :: rest) ->
  format_date w (completed_at latest) = Some formatted ->
  let all := latest :: rest in
  let pats := analyzeHistoricalPatterns all in
  let scored := scoredAreas latest pats all in
  let key x :=
    priorityScore x
    + match pats !! field_name (ca_field (sa_item x)) with
      | Some p => if decide (trend p = improving) then 10 else 0
      | None => 0
      end in
  exists r t sorted,
    exec (getStrengthsAndWeaknesses w userId) = (Returned r, t)
    /\ sorted ≡ₚ filter (fun x => priorityScore x < STRENGTH_THRESHOLD) scored
    /\ StronglySorted (fun a b => key a <= key b) sorted
    /\ weaknesses r = map growth_insight (take 3 sorted)
    /\ (forall x y,
          x ∈ scored -> y ∈ scored ->
          priorityScore y < STRENGTH_THRESHOLD ->
          area_name x ∈ map area (weaknesses r) ->
          area_name y ∉ map area (weaknesses r) ->
          key x <= key y).
Proof.
  intros He Hd Hf all pats scored key.
  pose proof (getStrengthsAndWeaknesses_run w userId latest rest formatted He Hd Hf)
    as Hrun. cbv zeta in Hrun.
  destruct (selected_weaknesses_order latest all)
    as (sorted & Hperm & Hsorted & Hw & Hout).
  do 2 eexists. exists sorted. split; [exact Hrun|].
  cbn [weaknesses]. by repeat split.
Qed.

(** ** The scenario with one record *)

Lemma single_record_score_high (v : R) :
  v >= 80 ->
  Rmax 0 (Rmin 100
    (if decide (v = 0) then v + 8 else (v + 8) * (9 / 10) + v * (1 / 10))) >= 70.
Proof.
  intros Hv. rewrite decide_False by lra.
  apply Rle_ge. etransitivity; [|apply Rmax_r].
  apply Rmin_glb; lra.
Qed.

(** C6: for exactly one assessment record with creativity_score 85 and the
    seven other dimensions at 80, all eight dimensions get a priority score of
    at least 70, so the result has three strengths (cut from eight) and no
    weakness. *)
Theorem single_high_record_three_strengths (w : World) (userId : string)
    (aid completed formatted : string) :
  let a := mkAssessmentData aid completed 85 80 80 80 80 80 80 80 in
  error (select_assessments w userId) = None ->
  data (select_assessments w userId) = Some [a] ->
  format_date w completed = Some formatted ->
  exists r t,
    exec (getStrengthsAndWeaknesses w userId) = (Returned r, t)
    /\ (forall x, x ∈ scoredAreas a (analyzeHistoricalPatterns [a]) [a] ->
          priorityScore x >= STRENGTH_THRESHOLD)
    /\ length (strengths r) = 3%nat
    /\ length (weaknesses r) = 0%nat.
Proof.
  intros a He Hd Hf.
  destruct (getStrengthsAndWeaknesses_analysis w userId a [] formatted He Hd Hf)
    as (r & t & Hrun & Hs & Hw & _).
  rewrite final_strengths in Hs. rewrite final_weaknesses in Hw.
  set (pats := analyzeHistoricalPatterns [a]) in *.
  set (scored := scoredAreas a pats [a]) in *.
  assert (Hhigh : forall x, x ∈ scored -> priorityScore x >= STRENGTH_THRESHOLD).
  { intros x Hx. apply list_elem_of_fmap in Hx as (item & -> & Hitem).
    cbn [priorityScore].
    destruct (single_record_area a item Hitem) as [_ Hscore].
    unfold pats. rewrite Hscore.
    apply single_record_score_high.
    unfold cognitiveAreas in Hitem.
    repeat (apply elem_of_cons in Hitem as [->|Hitem]); cbn; try lra.
    by apply elem_of_nil in Hitem. }
  assert (Hall : filter (fun x => isStrength x = true) scored = scored).
  { erewrite (filter_ext_elem _ (fun _ => True)).
    - clear. induction scored as [|x l IH]; [done|].
      rewrite filter_cons, decide_True by done. by rewrite IH.
    - intros x Hx. destruct (scoredAreas_flags _ _ _ x Hx) as [-> _].
      rewrite bool_decide_eq_true. split; [done | intros _; by apply Hhigh]. }
  assert (Hnone : filter (fun x => isWeakness x = true) scored = []).
  { pose proof (partition_lengths a pats [a]) as Hlen. fold scored in Hlen.
    rewrite Hall in Hlen. apply length_zero_iff_nil.
    pose proof (scoredAreas_length a pats [a]). fold scored in H. lia. }
  exists r, t. split; [exact Hrun|]. split; [exact Hhigh|].
  rewrite Hs, Hw, !length_map. unfold ranked_strengths, ranked_weaknesses.
  rewrite Hall, Hnone, !length_take, js_sort_length.
  pose proof (scoredAreas_length a pats [a]) as Hlen. fold scored in Hlen.
  rewrite Hlen. split; reflexivity.
Qed.

(** ** Concrete runs *)

(** The mapping computed on the sample interactions. *)
Example sample_interactions_stats :
  analyzeTechniquePatterns sample_interactions !! "t1"
  = Some (mkTechniqueStats 1 0 2 [])
  /\ analyzeTechniquePatterns sample_interactions !! "t2"
     = Some (mkTechniqueStats 0 1 1 [])
  /\ analyzeTechniquePatterns sample_interactions !! "t3" = None.
Proof. repeat split; vm_compute; reflexivity. Qed.

(** Four records whose older half is ten points above the newer half: the
    trend is improving, because the second half in supplied order is the
    higher one. *)
Example trend_of_four_records :
  trend (field_pattern
           [ sample_assessment 50 50; sample_assessment 50 50;
             sample_assessment 60 50; sample_assessment 60 50 ]
           f_creativity_score) = improving.
Proof.
  unfold field_pattern. cbn [map length get_field sample_assessment creativity_score trend].
  rewrite decide_True by lia.
  cbn [Nat.div Nat.divmod fst take drop length].
  unfold reduce_sum. cbn [foldl INR].
  rewrite decide_True by lra. reflexivity.
Qed.

(** The creativity score of the record with 85: the consistency bonus and
    the blend bring it to 92.2. *)
Example score_of_single_record :
  forall item, cognitiveAreas (sample_assessment 85 80)
                 (analyzeHistoricalPatterns [sample_assessment 85 80]) !! 0%nat
               = Some item ->
  calculatePriorityScore item
    (analyzeHistoricalPatterns [sample_assessment 85 80]) [sample_assessment 85 80]
  = 922 / 10.
Proof.
  intros item Hitem. injection Hitem as <-.
  etransitivity;
    [ exact (proj2 (single_record_area (sample_assessment 85 80) _
                      (list_elem_of_here _ _))) |].
  cbn [ca_value creativity_score sample_assessment].
  rewrite decide_False by lra.
  rewrite Rmin_right by lra. rewrite Rmax_right by lra. lra.
Qed.

Lemma getStrengthsAndWeaknesses_fetch_error_witness :
  error (select_assessments failing_world "user-1") = Some "connection refused"%string
  /\ exec (getStrengthsAndWeaknesses failing_world "user-1")
     = (Returned fallback_insights,
        [ QueryAssessments "user-1";
          ConsoleError "Error fetching assessment data:";
          ConsoleError "Error in getStrengthsAndWeaknesses:" ]).
Proof.
  split; [reflexivity|].
  apply (getStrengthsAndWeaknesses_fetch_error failing_world "user-1" "connection refused").
  reflexivity.
Defined.

Lemma getStrengthsAndWeaknesses_no_assessment_witness :
  error (select_assessments empty_world "user-1") = None
  /\ data (select_assessments empty_world "user-1") = Some []
  /\ exec (getStrengthsAndWeaknesses empty_world "user-1")
     = (Returned no_assessment_insights, [QueryAssessments "user-1"]).
Proof.
  split; [reflexivity|]. split; [reflexivity|].
  apply (getStrengthsAndWeaknesses_no_assessment empty_world "user-1").
  - reflexivity.
  - right. reflexivity.
Defined.

Lemma strengths_weaknesses_bounded_disjoint_witness :
  data (select_assessments low_world "user-1") = Some (low_latest :: low_rest)
  /\ exists r t,
    exec (getStrengthsAndWeaknesses low_world "user-1") = (Returned r, t)
    /\ (length (strengths r) <= 3)%nat
    /\ (length (weaknesses r) <= 3)%nat
    /\ (forall name, name ∈ map area (strengths r) ->
          exists x, x ∈ low_scored /\ area_name x = name
                    /\ priorityScore x >= STRENGTH_THRESHOLD)
    /\ (forall name, name ∈ map area (weaknesses r) ->
          exists x, x ∈ low_scored /\ area_name x = name
                    /\ priorityScore x < STRENGTH_THRESHOLD)
    /\ (forall name, name ∈ map area (strengths r) ->
          name ∉ map area (weaknesses r)).
Proof.
  split; [reflexivity|].
  apply (strengths_weaknesses_bounded_disjoint low_world "user-1"
           low_latest low_rest "01/01/2024"); reflexivity.
Defined.


Lemma weaknesses_lowest_adjusted_witness :
  data (select_assessments improving_world "user-1") = Some improving_assessments
  /\ exists r t sorted,
    exec (getStrengthsAndWeaknesses improving_world "user-1") = (Returned r, t)
    /\ sorted ≡ₚ filter (fun x => priorityScore x < STRENGTH_THRESHOLD) improving_scored
    /\ StronglySorted
         (fun a b =>
            claimed_adjusted_key (analyzeHistoricalPatterns improving_assessments) a
            <= claimed_adjusted_key (analyzeHistoricalPatterns improving_assessments) b)
         sorted
    /\ weaknesses r = map growth_insight (take 3 sorted)
    /\ (forall x y,
          x ∈ improving_scored -> y ∈ improving_scored ->
          priorityScore y < STRENGTH_THRESHOLD ->
          area_name x ∈ map area (weaknesses r) ->
          area_name y ∉ map area (weaknesses r) ->
          claimed_adjusted_key (analyzeHistoricalPatterns improving_assessments) x
          <= claimed_adjusted_key (analyzeHistoricalPatterns improving_assessments) y).
Proof.
  split; [reflexivity|].
  apply (weaknesses_lowest_adjusted improving_world "user-1"
           (sample_assessment 30 40)
           [sample_assessment 30 40; sample_assessment 50 40; sample_assessment 50 40]
           "01/01/2024"); reflexivity.
Defined.

Lemma single_high_record_three_strengths_witness :
  data (select_assessments high_world "user-1") = Some [sample_assessment 85 80]
  /\ exists r t,
    exec (getStrengthsAndWeaknesses high_world "user-1") = (Returned r, t)
    /\ (forall x,
          x ∈ scoredAreas (sample_assessment 85 80)
                (analyzeHistoricalPatterns [sample_assessment 85 80])
                [sample_assessment 85 80] ->
          priorityScore x >= STRENGTH_THRESHOLD)
    /\ length (strengths r) = 3%nat
    /\ length (weaknesses r) = 0%nat.
Proof.
  split; [reflexivity|].
  apply (single_high_record_three_strengths high_world "user-1"
           "1" "2024-01-01" "01/01/2024"); reflexivity.
Defined.


(** * Further properties of the service *)

(** ** The exits and the trace *)

Lemma getStrengthsAndWeaknesses_fetch_error_run (w : World) (userId e : string) :
  error (select_assessments w userId) = Some e ->
  exec (getStrengthsAndWeaknesses w userId)
  = (Returned fallback_insights,
     [ QueryAssessments userId;
       ConsoleError "Error fetching assessment data:";
       ConsoleError "Error in getStrengthsAndWeaknesses:" ]).
Proof.
  intros He.
  unfold exec, getStrengthsAndWeaknesses, try_catch, bind, emit, throw, ret.
  by rewrite He.
Qed.

Lemma getStrengthsAndWeaknesses_empty_run (w : World) (userId : string) :
  error (select_assessments w userId) = None ->
  data (select_assessments w userId) = None
  \/ data (select_assessments w userId) = Some [] ->
  exec (getStrengthsAndWeaknesses w userId)
  = (Returned no_assessment_insights, [QueryAssessments userId]).
Proof.
  intros He Hd.
  unfold exec, getStrengthsAndWeaknesses, try_catch, bind, emit, throw, ret.
  rewrite He. cbn.
  destruct Hd as [-> | ->]; reflexivity.
Qed.

Lemma getStrengthsAndWeaknesses_bad_date_run (w : World) (userId : string)
    (latest : AssessmentData) (rest : list AssessmentData) :
  error (select_assessments w userId) = None ->
  data (select_assessments w userId) = Some (latest :: rest) ->
  format_date w (completed_at latest) = None ->
  exec (getStrengthsAndWeaknesses w userId)
  = (Returned fallback_insights,
     [QueryAssessments userId; QueryInteractions userId]
     ++ (if bool_decide (is_Some (error (select_interactions w userId)))
         then [ConsoleError "Error fetching technique interactions:"] else [])
     ++ [ConsoleError "Error in getStrengthsAndWeaknesses:"]).
Proof.
  intros He Hd Hf.
  unfold exec, getStrengthsAndWeaknesses, analyze_and_save,
    try_catch, bind, emit, throw, ret.
  rewrite He, Hd.
  rewrite (bool_decide_eq_false_2 (is_Some None)) by (intros [? ?]; discriminate).
  rewrite Hf.
  destruct (bool_decide (is_Some (error (select_interactions w userId))));
    reflexivity.
Qed.

(** X1: the function never lets an exception out.  Whatever the
    collaborators answer, it returns a result, and that result is the
    fallback, the fixed result for no assessment, or an analysis tagged with
    the id of the first fetched record. *)
Theorem getStrengthsAndWeaknesses_always_returns (w : World) (userId : string) :
  exists r t,
    exec (getStrengthsAndWeaknesses w userId) = (Returned r, t)
    /\ (r = fallback_insights
        \/ r = no_assessment_insights
        \/ exists latest rest,
             data (select_assessments w userId) = Some (latest :: rest)
             /\ assessmentId r = Some (assessment_id latest)).
Proof.
  destruct (error (select_assessments w userId)) as [e|] eqn:He.
  - do 2 eexists. split.
    + by apply (getStrengthsAndWeaknesses_fetch_error_run w userId e).
    + by left.
  - destruct (data (select_assessments w userId)) as [[|latest rest]|] eqn:Hd.
    + do 2 eexists. split.
      * apply getStrengthsAndWeaknesses_empty_run; [done | by right].
      * right. by left.
    + destruct (format_date w (completed_at latest)) as [formatted|] eqn:Hf.
      * do 2 eexists. split.
        -- by apply (getStrengthsAndWeaknesses_run w userId latest rest formatted).
        -- right. right. by exists latest, rest.
      * do 2 eexists. split.
        -- by apply (getStrengthsAndWeaknesses_bad_date_run w userId latest rest).
        -- by left.
    + do 2 eexists. split.
      * apply getStrengthsAndWeaknesses_empty_run; [done | by left].
      * right. by left.
Qed.

Lemma filter_is_insert_app (t1 t2 : list Event) :
  filter (fun e => is_insert e = true) (t1 ++ t2)
  = filter (fun e => is_insert e = true) t1 ++ filter (fun e => is_insert e = true) t2.
Proof. apply filter_app. Qed.

Lemma filter_is_insert_log (b : bool) (message : string) :
  filter (fun e => is_insert e = true) (if b then [ConsoleError message] else []) = [].
Proof. by destruct b. Qed.

(** X2: when the completion date of the latest record cannot be formatted,
    the analysis is abandoned: the function returns the fallback result,
    and nothing is inserted into the history, although the interactions were
    already fetched. *)
Theorem unformattable_date_gives_fallback (w : World) (userId : string)
    (latest : AssessmentData) (rest : list AssessmentData) :
  error (select_assessments w userId) = None ->
  data (select_assessments w userId) = Some (latest :: rest) ->
  format_date w (completed_at latest) = None ->
  exists t,
    exec (getStrengthsAndWeaknesses w userId) = (Returned fallback_insights, t)
    /\ QueryInteractions userId ∈ t
    /\ filter (fun e => is_insert e = true) t = [].
Proof.
  intros He Hd Hf. eexists. split.
  - by apply (getStrengthsAndWeaknesses_bad_date_run w userId latest rest).
  - split.
    + apply elem_of_cons. right. apply list_elem_of_here.
    + cbn [app]. rewrite !filter_cons. cbn [is_insert].
      decide_closed. rewrite filter_is_insert_app.
      by destruct (bool_decide (is_Some (error (select_interactions w userId)))).
Qed.

Lemma unformattable_date_gives_fallback_witness :
  format_date bad_date_world (completed_at (sample_assessment 85 80)) = None
  /\ exists t,
    exec (getStrengthsAndWeaknesses bad_date_world "user-1")
    = (Returned fallback_insights, t)
    /\ QueryInteractions "user-1" ∈ t
    /\ filter (fun e => is_insert e = true) t = [].
Proof.
  split; [reflexivity|].
  apply (unformattable_date_gives_fallback bad_date_world "user-1"
           (sample_assessment 85 80) []); reflexivity.
Defined.

(** X3: a refused insert does not cost the caller the analysis.  The result
    keeps the selected strengths and weaknesses, the narrative and the
    assessment id; only id and createdAt are left unset, and the failure is
    logged. *)
Theorem save_failure_keeps_analysis (w : World) (userId : string)
    (latest : AssessmentData) (rest : list AssessmentData) (formatted e : string) :
  error (select_assessments w userId) = None ->
  data (select_assessments w userId) = Some (latest :: rest) ->
  format_date w (completed_at latest) = Some formatted ->
  let all := latest :: rest in
  let row := insight_to_save w userId formatted latest all in
  insert_insight w row = mkResponse None (Some e) ->
  exists r t,
    exec (getStrengthsAndWeaknesses w userId) = (Returned r, t)
    /\ id r = None /\ createdAt r = None
    /\ strengths r = selected_strengths latest all
    /\ weaknesses r = selected_weaknesses latest all
    /\ generalInsight r = row_general_insight row
    /\ assessmentId r = Some (assessment_id latest)
    /\ ConsoleError "Error saving insight history:" ∈ t.
Proof.
  intros He Hd Hf all row Hsave.
  pose proof (getStrengthsAndWeaknesses_run w userId latest rest formatted He Hd Hf)
    as Hrun.
  cbv zeta in Hrun. fold all in Hrun. fold row in Hrun. rewrite Hsave in Hrun.
  do 2 eexists. split; [exact Hrun|].
  cbn [id createdAt strengths weaknesses generalInsight assessmentId data error fmap
       option_fmap option_map].
  repeat split.
  rewrite (bool_decide_eq_true_2 (is_Some (Some e))) by (by eexists).
  rewrite !elem_of_app. right. right. right. apply list_elem_of_here.
Qed.

Lemma save_failure_keeps_analysis_witness :
  insert_insight save_failing_world
    (insight_to_save save_failing_world "user-1" "01/01/2024"
       (sample_assessment 85 80) [sample_assessment 85 80])
  = mkResponse None (Some "insert refused"%string)
  /\ exists r t,
    exec (getStrengthsAndWeaknesses save_failing_world "user-1") = (Returned r, t)
    /\ id r = None /\ createdAt r = None
    /\ strengths r
       = selected_strengths (sample_assessment 85 80) [sample_assessment 85 80]
    /\ weaknesses r
       = selected_weaknesses (sample_assessment 85 80) [sample_assessment 85 80]
    /\ generalInsight r
       = row_general_insight
           (insight_to_save save_failing_world "user-1" "01/01/2024"
              (sample_assessment 85 80) [sample_assessment 85 80])
    /\ assessmentId r = Some (assessment_id (sample_assessment 85 80))
    /\ ConsoleError "Error saving insight history:" ∈ t.
Proof.
  split; [reflexivity|].
  apply (save_failure_keeps_analysis save_failing_world "user-1"
           (sample_assessment 85 80) [] "01/01/2024" "insert refused"); reflexivity.
Defined.

(** X4: on the analysis path the history receives exactly one insert, issued
    after both queries, and the inserted row carries what the caller gets:
    the same strengths, weaknesses and narrative, the user id and the id of
    the latest assessment. *)
Theorem one_insert_matching_result (w : World) (userId : string)
    (latest : AssessmentData) (rest : list AssessmentData) (formatted : string) :
  error (select_assessments w userId) = None ->
  data (select_assessments w userId) = Some (latest :: rest) ->
  format_date w (completed_at latest) = Some formatted ->
  exists r t t' row,
    exec (getStrengthsAndWeaknesses w userId)
    = (Returned r, QueryAssessments userId :: QueryInteractions userId :: t ++ [InsertInsight row] ++ t')
    /\ filter (fun e => is_insert e = true) t = []
    /\ filter (fun e => is_insert e = true) t' = []
    /\ row_user_id row = userId
    /\ row_strengths row = strengths r
    /\ row_weaknesses row = weaknesses r
    /\ row_general_insight row = generalInsight r
    /\ Some (row_assessment_id row) = assessmentId r
    /\ row_assessment_id row = assessment_id latest.
Proof.
  intros He Hd Hf.
  pose proof (getStrengthsAndWeaknesses_run w userId latest rest formatted He Hd Hf)
    as Hrun.
  cbv zeta in Hrun.
  do 4 eexists. split; [exact Hrun|].
  split; [apply filter_is_insert_log|].
  split; [apply filter_is_insert_log|].
  cbn [row_user_id row_strengths row_weaknesses row_general_insight
       row_assessment_id insight_to_save strengths weaknesses generalInsight
       assessmentId].
  by repeat split.
Qed.

Lemma one_insert_matching_result_witness :
  data (select_assessments degraded_world "user-1") = Some (low_latest :: low_rest)
  /\ exists r t t' row,
    exec (getStrengthsAndWeaknesses degraded_world "user-1")
    = (Returned r, QueryAssessments "user-1" :: QueryInteractions "user-1"
                     :: t ++ [InsertInsight row] ++ t')
    /\ filter (fun e => is_insert e = true) t = []
    /\ filter (fun e => is_insert e = true) t' = []
    /\ row_user_id row = "user-1"%string
    /\ row_strengths row = strengths r
    /\ row_weaknesses row = weaknesses r
    /\ row_general_insight row = generalInsight r
    /\ Some (row_assessment_id row) = assessmentId r
    /\ row_assessment_id row = assessment_id low_latest.
Proof.
  split; [reflexivity|].
  apply (one_insert_matching_result degraded_world "user-1" low_latest low_rest
           "02/01/2024"); reflexivity.
Defined.

(** X5: the selected strengths and weaknesses depend on the fetched
    assessments alone.  Two runs that fetch the same non-empty sequence
    return the same two lists, whatever the interactions query, the insert,
    the random draw, the clock and the user id are. *)
Theorem selection_depends_on_assessments_only (w1 w2 : World) (u1 u2 : string)
    (latest : AssessmentData) (rest : list AssessmentData) (d1 d2 : string) :
  error (select_assessments w1 u1) = None ->
  error (select_assessments w2 u2) = None ->
  data (select_assessments w1 u1) = Some (latest :: rest) ->
  data (select_assessments w2 u2) = Some (latest :: rest) ->
  format_date w1 (completed_at latest) = Some d1 ->
  format_date w2 (completed_at latest) = Some d2 ->
  exists r1 t1 r2 t2,
    exec (getStrengthsAndWeaknesses w1 u1) = (Returned r1, t1)
    /\ exec (getStrengthsAndWeaknesses w2 u2) = (Returned r2, t2)
    /\ strengths r1 = strengths r2
    /\ weaknesses r1 = weaknesses r2.
Proof.
  intros He1 He2 Hd1 Hd2 Hf1 Hf2.
  pose proof (getStrengthsAndWeaknesses_run w1 u1 latest rest d1 He1 Hd1 Hf1) as H1.
  pose proof (getStrengthsAndWeaknesses_run w2 u2 latest rest d2 He2 Hd2 Hf2) as H2.
  cbv zeta in H1, H2.
  do 4 eexists. split; [exact H1|]. split; [exact H2|].
  cbn [strengths weaknesses]. by split.
Qed.

Lemma selection_depends_on_assessments_only_witness :
  data (select_assessments low_world "user-1") = Some (low_latest :: low_rest)
  /\ data (select_assessments degraded_world "user-2") = Some (low_latest :: low_rest)
  /\ exists r1 t1 r2 t2,
    exec (getStrengthsAndWeaknesses low_world "user-1") = (Returned r1, t1)
    /\ exec (getStrengthsAndWeaknesses degraded_world "user-2") = (Returned r2, t2)
    /\ strengths r1 = strengths r2
    /\ weaknesses r1 = weaknesses r2.
Proof.
  split; [reflexivity|]. split; [reflexivity|].
  apply (selection_depends_on_assessments_only low_world degraded_world
           "user-1" "user-2" low_latest low_rest "01/01/2024" "02/01/2024");
    reflexivity.
Defined.

(** ** The narrative *)

Lemma random_index_bound (r : R) :
  0 <= r < 1 -> (random_index r 3 < 3)%nat.
Proof.
  intros [H0 H1]. unfold random_index. cbn [INR].
  replace (1 + 1 + 1) with 3 by lra.
  destruct (base_Int_part (r * 3)) as [Hle Hgt].
  assert (Hlt : (Int_part (r * 3) < 3)%Z) by (apply lt_IZR; lra).
  assert (Hge : (-1 < Int_part (r * 3))%Z) by (apply lt_IZR; lra).
  lia.
Qed.

(** X6: provided the random draw lies in the half-open unit interval, as
    [Math.random] promises, the narrative is one of the three templates
    filled with the same four phrases, the assessment count and the date; the
    index never falls outside the array. *)
Theorem compose_insight_is_a_template (w : World) (formattedDate : string)
    (assessmentCount : nat) (areas : list CognitiveArea)
    (historicalPatterns : gmap string Pattern)
    (techniquePatterns : gmap string TechniqueStats)
    (strengths weaknesses : list Insight) :
  0 <= math_random w < 1 ->
  exists strengthsPhrase weaknessesPhrase patternPhrase techniquePhrase,
    compose_insight w formattedDate assessmentCount areas historicalPatterns
      techniquePatterns strengths weaknesses
    ∈ insightTemplates assessmentCount formattedDate strengthsPhrase
        weaknessesPhrase patternPhrase techniquePhrase
    /\ (strengths = [] ->
        strengthsPhrase = "you're developing strengths across multiple areas"%string)
    /\ (strengths <> [] ->
        strengthsPhrase
        = ("your key strengths are " +:+ join ", " (map area strengths))%string)
    /\ (weaknesses = [] ->
        weaknessesPhrase = "you're performing well across all assessed areas"%string)
    /\ (weaknesses <> [] ->
        weaknessesPhrase
        = ("focusing on " +:+ join ", " (map area weaknesses)
           +:+ " will help you progress further")%string).
Proof.
  intros Hr. unfold compose_insight. cbv zeta.
  do 4 eexists. split; [|split; [|split; [|split]]].
  - match goal with
    | |- default _ (?l !! ?i) ∈ _ =>
        destruct (lookup_lt_is_Some_2 l i) as [x Hx];
          [ apply random_index_bound, Hr | rewrite Hx ]
    end.
    cbn [default]. eapply list_elem_of_lookup_2, Hx.
  - intros ->. reflexivity.
  - intros Hne. destruct strengths; [done|].
    rewrite decide_True by (cbn; lia). reflexivity.
  - intros ->. reflexivity.
  - intros Hne. destruct weaknesses; [done|].
    rewrite decide_True by (cbn; lia). reflexivity.
Qed.

Lemma compose_insight_is_a_template_witness :
  0 <= math_random degraded_world < 1
  /\ exists strengthsPhrase weaknessesPhrase patternPhrase techniquePhrase,
    compose_insight degraded_world "02/01/2024" 2 [] ∅ ∅ [] []
    ∈ insightTemplates 2 "02/01/2024" strengthsPhrase
        weaknessesPhrase patternPhrase techniquePhrase
    /\ strengthsPhrase = "you're developing strengths across multiple areas"%string
    /\ weaknessesPhrase = "you're performing well across all assessed areas"%string.
Proof.
  split; [cbn; lra|].
  destruct (compose_insight_is_a_template degraded_world "02/01/2024" 2 [] ∅ ∅ [] [])
    as (sp & wp & pp & tp & Hin & Hs & _ & Hw & _); [cbn; lra|].
  exists sp, wp, pp, tp. split; [exact Hin|]. split; [by apply Hs | by apply Hw].
Defined.

(** ** The history of insights *)

Lemma insight_shaped_iff (s : Json) :
  insight_shaped s = true
  <-> exists fields, s = JObj fields
        /\ "area"%string ∈ fields.*1 /\ "description"%string ∈ fields.*1.
Proof.
  split.
  - destruct s as [| | | | |fields]; cbn; try discriminate.
    intros [Ha Hd]%andb_true_iff. exists fields.
    unfold has_key in Ha, Hd.
    apply bool_decide_eq_true in Ha. apply bool_decide_eq_true in Hd. by repeat split.
  - intros (fields & -> & Ha & Hd). cbn. unfold has_key.
    by rewrite !bool_decide_eq_true_2.
Qed.

Lemma keep_insights_insight_json (l : list Insight) :
  keep_insights (JArr (map insight_json l)) = map insight_json l.
Proof.
  cbn [keep_insights]. induction l as [|i l IH]; [reflexivity|].
  cbn [map]. rewrite filter_cons, IH.
  rewrite decide_True; [reflexivity|].
  apply insight_shaped_iff. eexists. split; [reflexivity|].
  cbn. split; [apply list_elem_of_here|]. apply elem_of_cons. right. apply list_elem_of_here.
Qed.

(** X7: the history read never lets an exception out either.  When the
    query answers with an error, or with neither error nor data, it returns
    the empty sequence and logs the failure. *)
Theorem getInsightHistory_failure_is_empty
    (select_history : string -> nat -> Response (list HistoryRow))
    (userId : string) :
  is_Some (error (select_history userId 10%nat))
  \/ data (select_history userId 10%nat) = None ->
  exists t,
    exec (getInsightHistory select_history userId) = (Returned [], t)
    /\ last t = Some (ConsoleError "Error in getInsightHistory:").
Proof.
  intros Hfail.
  unfold exec, getInsightHistory, try_catch, bind, emit, throw, ret.
  destruct (error (select_history userId 10%nat)) as [e|] eqn:He.
  - by eexists.
  - destruct Hfail as [[e He']|Hd]; [discriminate|].
    rewrite Hd. by eexists.
Qed.

Lemma getInsightHistory_failure_is_empty_witness :
  data (mkResponse (@None (list HistoryRow)) None) = None
  /\ exists t,
    exec (getInsightHistory (fun _ _ => mkResponse None None) "user-1")
    = (Returned [], t)
    /\ last t = Some (ConsoleError "Error in getInsightHistory:").
Proof.
  split; [reflexivity|].
  apply (getInsightHistory_failure_is_empty (fun _ _ => mkResponse None None) "user-1").
  right. reflexivity.
Defined.

(** X8: what was saved reads back unchanged.  If the rows of the history
    are saved insights (generated id and timestamp, the two lists stored as
    arrays of objects with area and description), the read returns one entry
    per row, in order, with the same id, timestamp, narrative and assessment
    id, and with every stored strength and weakness kept, none dropped. *)
Theorem saved_insights_read_back
    (select_history : string -> nat -> Response (list HistoryRow))
    (userId : string) (saves : list (SavedInsight * InsightRow)) :
  error (select_history userId 10%nat) = None ->
  data (select_history userId 10%nat)
  = Some (map (fun p => stored_row p.1 p.2) saves) ->
  exec (getInsightHistory select_history userId)
  = (Returned
       (map (fun p =>
               {| si_id := saved_id p.1;
                  si_generalInsight := row_general_insight p.2;
                  si_strengths := map insight_json (row_strengths p.2);
                  si_weaknesses := map insight_json (row_weaknesses p.2);
                  si_createdAt := saved_created_at p.1;
                  si_assessmentId := Some (row_assessment_id p.2) |})
            saves),
     []).
Proof.
  intros He Hd.
  unfold exec, getInsightHistory, try_catch, bind, emit, throw, ret.
  rewrite He, Hd. do 2 f_equal.
  rewrite map_map. apply map_ext. intros [saved row].
  unfold reshape_row, stored_row.
  cbn [hr_id hr_general_insight hr_strengths hr_weaknesses hr_created_at
       hr_assessment_id fst snd].
  by rewrite !keep_insights_insight_json.
Qed.

Lemma saved_insights_read_back_witness :
  data (sample_history "user-1" 10%nat)
  = Some (map (fun p => stored_row p.1 p.2) sample_saves)
  /\ exec (getInsightHistory sample_history "user-1")
     = (Returned
          (map (fun p =>
                  {| si_id := saved_id p.1;
                     si_generalInsight := row_general_insight p.2;
                     si_strengths := map insight_json (row_strengths p.2);
                     si_weaknesses := map insight_json (row_weaknesses p.2);
                     si_createdAt := saved_created_at p.1;
                     si_assessmentId := Some (row_assessment_id p.2) |})
               sample_saves),
        []).
Proof.
  split; [reflexivity|].
  apply (saved_insights_read_back sample_history "user-1" sample_saves); reflexivity.
Defined.

(** X9: the guard on stored entries looks at the shape only.  An entry is
    kept exactly when it is an object having both an area and a description
    property, whatever their values; the kept entries are a subsequence of
    the stored array; and a column that is not an array yields no entry. *)
Theorem keep_insights_guard (x : Json) :
  (forall s, s ∈ keep_insights x <->
     exists items fields,
       x = JArr items /\ s ∈ items /\ s = JObj fields
       /\ "area"%string ∈ fields.*1 /\ "description"%string ∈ fields.*1)
  /\ (forall items, x = JArr items -> keep_insights x `sublist_of` items)
  /\ ((forall items, x <> JArr items) -> keep_insights x = []).
Proof.
  split; [|split].
  - intros s. split.
    + destruct x as [| | | |items|]; cbn; try (by intros ?%elem_of_nil).
      intros [Hs Hin]%list_elem_of_filter.
      apply insight_shaped_iff in Hs as (fields & -> & Ha & Hd).
      by exists items, fields.
    + intros (items & fields & -> & Hin & -> & Ha & Hd). cbn.
      apply list_elem_of_filter. split; [|done].
      apply insight_shaped_iff. by exists fields.
  - intros items ->. apply sublist_filter.
  - intros Hna. destruct x; try reflexivity. by destruct (Hna items).
Qed.

(** ** More on the historical patterns *)

Lemma field_name_inj (f g : CognitiveField) : field_name f = field_name g -> f = g.
Proof. destruct f, g; cbn; intros H; try reflexivity; discriminate H. Qed.

(** X10: the mapping has a pattern under exactly the eight field names when
    at least one record is given, and under no key at all for the empty
    sequence. *)
Theorem analyzeHistoricalPatterns_keys (assessments : list AssessmentData)
    (key : string) :
  is_Some (analyzeHistoricalPatterns assessments !! key)
  <-> assessments <> [] /\ exists f, key = field_name f.
Proof.
  destruct assessments as [|a l].
  - rewrite analyzeHistoricalPatterns_nil, lookup_empty. split.
    + by intros [? ?].
    + by intros [? _].
  - split.
    + intros Hs. split; [done|].
      unfold analyzeHistoricalPatterns in Hs.
      rewrite decide_False in Hs by done.
      unfold cognitiveFields in Hs. cbn [foldl] in Hs.
      apply elem_of_dom in Hs. rewrite !dom_insert_L, dom_empty_L in Hs.
      cbn [field_name] in Hs. set_unfold in Hs.
      destruct Hs as [Hs|[Hs|[Hs|[Hs|[Hs|[Hs|[Hs|[Hs|[]]]]]]]]]; subst key;
        [ by exists f_time_awareness | by exists f_organization
        | by exists f_emotional_regulation | by exists f_task_switching
        | by exists f_focus_duration | by exists f_pattern_recognition
        | by exists f_problem_solving | by exists f_creativity_score ].
    + intros [_ [f ->]]. rewrite analyzeHistoricalPatterns_lookup by done. by eexists.
Qed.

Lemma total_ge_0_sq (avg : R) (values : list R) :
  0 <= total (map (fun v => (v - avg) ^ 2) values).
Proof.
  induction values as [|x l IH]; cbn [map total]; [lra|].
  pose proof (pow2_ge_0 (x - avg)). lra.
Qed.

(** X11: the consistency of every pattern lies between 0 and 100: the
    standard deviation is never negative, so the upper end needs no clamp. *)
Theorem consistency_bounded (assessments : list AssessmentData) (key : string)
    (p : Pattern) :
  analyzeHistoricalPatterns assessments !! key = Some p ->
  0 <= consistency p <= 100.
Proof.
  intros Hp.
  assert (Hs : is_Some (analyzeHistoricalPatterns assessments !! key)) by by eexists.
  apply analyzeHistoricalPatterns_keys in Hs as [Hne [f ->]].
  rewrite analyzeHistoricalPatterns_lookup in Hp by done.
  injection Hp as <-. unfold field_pattern. cbn [consistency].
  split; [apply Rmax_l|].
  apply Rmax_lub; [lra|].
  match goal with |- 100 - sqrt ?v <= 100 => pose proof (sqrt_pos v) end. lra.
Qed.

Lemma consistency_bounded_witness :
  analyzeHistoricalPatterns [sample_assessment 85 80] !! "focus_duration"
  = Some {| average := 80; trend := stable; consistency := 100 |}
  /\ 0 <= consistency {| average := 80; trend := stable; consistency := 100 |} <= 100.
Proof.
  assert (H : analyzeHistoricalPatterns [sample_assessment 85 80] !! "focus_duration"
              = Some {| average := 80; trend := stable; consistency := 100 |}).
  { apply (single_record_lookup (sample_assessment 85 80) f_focus_duration). }
  split; [exact H|].
  apply (consistency_bounded [sample_assessment 85 80] "focus_duration" _ H).
Defined.


Lemma length_pos_INR {A : Type} (l : list A) : l <> [] -> 0 < INR (length l).
Proof.
  intros Hne. apply lt_0_INR. destruct l; [done | cbn; lia].
Qed.




Lemma total_constant (v : R) (values : list R) :
  Forall (fun x => x = v) values -> total values = INR (length values) * v.
Proof.
  induction 1 as [|x l -> _ IH].
  - cbn. lra.
  - rewrite length_cons, S_INR. cbn [total]. lra.
Qed.

Lemma mean_constant (v : R) (values : list R) :
  values <> [] -> Forall (fun x => x = v) values ->
  reduce_sum values / INR (length values) = v.
Proof.
  intros Hne Hall. rewrite reduce_sum_total, (total_constant v) by done.
  pose proof (length_pos_INR values Hne). field. lra.
Qed.

Lemma total_sq_dev_constant (v : R) (values : list R) :
  Forall (fun x => x = v) values ->
  total (map (fun x => (x - v) ^ 2) values) = 0.
Proof.
  induction 1 as [|x l -> _ IH]; cbn [map total]; [reflexivity|]. rewrite IH. lra.
Qed.

Lemma constant_dimension_lookup (assessments : list AssessmentData)
    (f : CognitiveField) (v : R) :
  assessments <> [] ->
  (forall a, a ∈ assessments -> get_field f a = v) ->
  analyzeHistoricalPatterns assessments !! field_name f
  = Some {| average := v; trend := stable; consistency := 100 |}.
Proof.
  intros Hne Hall.
  rewrite analyzeHistoricalPatterns_lookup by done. f_equal.
  unfold field_pattern.
  set (values := map (get_field f) assessments).
  assert (Hvals : Forall (fun x => x = v) values).
  { apply Forall_forall. intros x Hx.
    apply list_elem_of_fmap in Hx as (a & -> & Ha). by apply Hall. }
  assert (Hvne : values <> []) by (unfold values; by destruct assessments).
  rewrite (mean_constant v values Hvne Hvals).
  f_equal.
  - case_decide as H4; [|reflexivity].
    assert (Hmid : (2 <= length values / 2)%nat)
      by (apply Nat.div_le_lower_bound; lia).
    assert (Hmid' : (length values / 2 < length values)%nat)
      by (apply Nat.div_lt; lia).
    rewrite (mean_constant v (take _ values)), (mean_constant v (drop _ values)).
    + rewrite !decide_False by lra. reflexivity.
    + intros Hd. apply (f_equal length) in Hd. rewrite length_drop in Hd. cbn [length] in Hd. lia.
    + by apply Forall_drop.
    + intros Ht. apply (f_equal length) in Ht. rewrite length_take in Ht. cbn [length] in Ht. lia.
    + by apply Forall_take.
  - rewrite reduce_sq_dev_total, (total_sq_dev_constant v values Hvals).
    pose proof (length_pos_INR values Hvne).
    replace (0 / INR (length values)) with 0 by (field; lra).
    rewrite sqrt_0. replace (100 - 0) with 100 by lra. apply Rmax_right. lra.
Qed.







(** ** More on the technique statistics *)

Lemma interactions_of_nil_iff (tid : string) (l : list TechniqueInteraction) :
  length (interactions_of tid l) = 0%nat <-> tid ∉ map technique_id l.
Proof.
  rewrite length_zero_iff_nil. unfold interactions_of. split.
  - intros Hnil Hin. apply list_elem_of_fmap in Hin as (i & -> & Hi).
    assert (Hi' : i ∈ filter (fun j => technique_id j = technique_id i) l)
      by (by apply list_elem_of_filter).
    rewrite Hnil in Hi'. by apply elem_of_nil in Hi'.
  - intros Hout. induction l as [|i l IH]; [reflexivity|].
    rewrite filter_cons. rewrite decide_False.
    + apply IH. intros Hin. apply Hout. cbn [map]. by right.
    + intros Heq. apply Hout. rewrite <- Heq. cbn [map]. by left.
Qed.

(** X17: the mapping has an entry for a technique exactly when some record
    names it and the identifier is not a name inherited from
    [Object.prototype]: an identifier that never occurs has no entry, the
    empty input gives the empty mapping, and an inherited name never gets
    one. *)
Theorem analyzeTechniquePatterns_keys (interactions : list TechniqueInteraction)
    (tid : string) :
  is_Some (analyzeTechniquePatterns interactions !! tid)
  <-> tid ∈ map technique_id interactions /\ tid ∉ object_prototype_names.
Proof.
  rewrite analyzeTechniquePatterns_lookup.
  destruct (decide (tid ∈ object_prototype_names)) as [Hin|Hown].
  { split; [by intros [? ?] | by intros [_ ?]]. }
  case_decide as Hz.
  - apply interactions_of_nil_iff in Hz. split; [by intros [? ?] | by intros [? _]].
  - split; [|by eexists]. intros _. split; [|done].
    destruct (decide (tid ∈ map technique_id interactions)) as [|Hout]; [done|].
    by apply interactions_of_nil_iff in Hout.
Qed.

(** X18: the statistics are additive.  Analysing two batches one after the
    other in a single pass gives, for every technique, the sum of the
    counters of the two batches analysed apart. *)
Theorem analyzeTechniquePatterns_app (l1 l2 : list TechniqueInteraction) :
  analyzeTechniquePatterns (l1 ++ l2)
  = union_with (fun a b => Some (add_stats a b))
      (analyzeTechniquePatterns l1) (analyzeTechniquePatterns l2).
Proof.
  apply map_eq. intros tid.
  rewrite lookup_union_with, !analyzeTechniquePatterns_lookup.
  unfold count_feedback, interactions_of.
  rewrite !filter_app, !length_app.
  repeat case_decide; try lia; cbn; try reflexivity.
  - f_equal. unfold count_feedback, interactions_of in *.
    assert (Hnil : filter (fun i => technique_id i = tid) l1 = [])
      by (by apply length_zero_iff_nil).
    by rewrite Hnil.
  - f_equal. unfold count_feedback, interactions_of in *.
    assert (Hnil : filter (fun i => technique_id i = tid) l2 = [])
      by (by apply length_zero_iff_nil).
    rewrite Hnil. cbn. by rewrite !Nat.add_0_r.
Qed.

(** ** The guard on interaction rows *)

Ltac refute_now := first [ discriminate | congruence ].

Ltac split_bit b := destruct b; try (cbn in *; refute_now).

(** Peel one character off [s], bit by bit, closing each branch in which
    the literal patterns can no longer match. *)
Ltac next_char s :=
  let b0 := fresh "b" in let b1 := fresh "b" in let b2 := fresh "b" in
  let b3 := fresh "b" in let b4 := fresh "b" in let b5 := fresh "b" in
  let b6 := fresh "b" in let b7 := fresh "b" in
  destruct s as [|[b0 b1 b2 b3 b4 b5 b6 b7] s];
  [ try (cbn in *; refute_now)
  | split_bit b0; split_bit b1; split_bit b2; split_bit b3;
    split_bit b4; split_bit b5; split_bit b6; split_bit b7 ].

Lemma parse_feedback_Some (s : option string) (fb : option Feedback) :
  parse_feedback s = Some fb ->
  (s = None /\ fb = None)
  \/ (s = Some "helpful"%string /\ fb = Some helpful)
  \/ (s = Some "not-helpful"%string /\ fb = Some not_helpful).
Proof.
  destruct s as [s|]; [|intros [= <-]; by left].
  destruct (decide (s = "helpful"%string)) as [->|Hh].
  { intros [= <-]. right. by left. }
  destruct (decide (s = "not-helpful"%string)) as [->|Hn].
  { intros [= <-]. right. by right. }
  intros H. exfalso. unfold parse_feedback in H.
  do 12 (try next_char s).
Qed.

Lemma valid_interaction_guard_iff (row : option RawInteraction)
    (i : TechniqueInteraction) :
  valid_interaction row = Some i <-> row = Some (raw_of_interaction i).
Proof.
  split.
  - unfold valid_interaction. destruct row as [[tid title fb created]|]; [|discriminate].
    cbn [raw_technique_id raw_technique_title raw_feedback raw_created_at].
    destruct tid as [tid|]; [|discriminate].
    destruct title as [title|]; [|discriminate].
    destruct (parse_feedback fb) as [pfb|] eqn:Hfb; [|discriminate].
    destruct created as [created|]; [|discriminate].
    intros [= <-]. unfold raw_of_interaction. cbn. do 2 f_equal.
    apply parse_feedback_Some in Hfb as [[-> ->]|[[-> ->]|[-> ->]]]; reflexivity.
  - intros ->. destruct i as [tid title [[]|] created]; reflexivity.
Qed.

(** X19: the guard on interaction rows accepts exactly the well-formed
    ones and hands their content over unchanged.  A row with its three
    strings present and a feedback that is null, helpful or not-helpful
    passes as it is; a null row, a row with a null id, title or timestamp,
    or any other feedback string is dropped. *)
Theorem valid_interaction_guard (row : option RawInteraction)
    (i : TechniqueInteraction) :
  (valid_interaction row = Some i <-> row = Some (raw_of_interaction i))
  /\ (valid_interaction row = None <->
      forall j, row <> Some (raw_of_interaction j)).
Proof.
  split; [apply valid_interaction_guard_iff|].
  split.
  - intros Hnone j Hj. apply valid_interaction_guard_iff in Hj. congruence.
  - intros Hall. destruct (valid_interaction row) as [j|] eqn:Hj; [|reflexivity].
    apply valid_interaction_guard_iff in Hj. by destruct (Hall j).
Qed.


(** ** More on the priority score *)

Lemma clamp_mono (x y : R) :
  x <= y -> Rmax 0 (Rmin 100 x) <= Rmax 0 (Rmin 100 y).
Proof.
  intros Hxy.
  apply Rmax_lub; [apply Rmax_l|].
  etransitivity; [|apply Rmax_r].
  apply Rmin_glb; [apply Rmin_l|].
  etransitivity; [apply Rmin_r | exact Hxy].
Qed.

Lemma historicalWeight_bounds (n : nat) :
  0 <= Rmin (INR n / 10) (3 / 10) <= 3 / 10.
Proof.
  split; [|apply Rmin_r].
  apply Rmin_glb; [|lra].
  pose proof (pos_INR n). lra.
Qed.

(** X21: all else equal, a higher latest value never lowers the priority
    score: for a fixed pattern and a fixed assessment sequence the score is
    monotone in the value. *)
Theorem calculatePriorityScore_monotone (item : CognitiveArea)
    (patterns : gmap string Pattern) (allAssessments : list AssessmentData)
    (v v' : R) :
  v <= v' ->
  calculatePriorityScore (with_value item v) patterns allAssessments
  <= calculatePriorityScore (with_value item v') patterns allAssessments.
Proof.
  intros Hv. unfold calculatePriorityScore.
  cbn [with_value ca_value ca_pattern ca_field].
  apply clamp_mono.
  pose proof (historicalWeight_bounds (length allAssessments)) as Hw.
  revert Hw. generalize (Rmin (INR (length allAssessments) / 10) (3 / 10)).
  intros hw Hw.
  assert (Hrec : forall s s' : R, s <= s' ->
    (if decide (1 < length allAssessments)%nat then
       if decide (2 <= length (map (get_field (ca_field item)) (take 3 allAssessments)))%nat
       then s + (nth 0 (map (get_field (ca_field item)) (take 3 allAssessments)) 0
                 - nth (length (map (get_field (ca_field item)) (take 3 allAssessments)) - 1)
                       (map (get_field (ca_field item)) (take 3 allAssessments)) 0)
                * (2 / 10)
       else s
     else s)
    <= (if decide (1 < length allAssessments)%nat then
       if decide (2 <= length (map (get_field (ca_field item)) (take 3 allAssessments)))%nat
       then s' + (nth 0 (map (get_field (ca_field item)) (take 3 allAssessments)) 0
                 - nth (length (map (get_field (ca_field item)) (take 3 allAssessments)) - 1)
                       (map (get_field (ca_field item)) (take 3 allAssessments)) 0)
                * (2 / 10)
       else s'
     else s')).
  { intros s s' Hs. repeat case_decide; lra. }
  apply Hrec.
  destruct (ca_pattern item) as [p|]; [|exact Hv].
  repeat case_decide; try lra; nra.
Qed.

Lemma calculatePriorityScore_monotone_witness :
  80 <= 85
  /\ calculatePriorityScore (with_value sample_creativity_area 80) ∅
       [sample_assessment 85 80]
     <= calculatePriorityScore (with_value sample_creativity_area 85) ∅
          [sample_assessment 85 80].
Proof.
  split; [lra|].
  apply (calculatePriorityScore_monotone sample_creativity_area ∅
           [sample_assessment 85 80] 80 85).
  lra.
Defined.

(** X22: all else equal, an improving trend never scores below a stable
    one, and a stable one never below a declining one. *)
Theorem calculatePriorityScore_trend_order (item : CognitiveArea)
    (patterns : gmap string Pattern) (allAssessments : list AssessmentData) :
  calculatePriorityScore (with_trend item declining) patterns allAssessments
  <= calculatePriorityScore (with_trend item stable) patterns allAssessments
  /\ calculatePriorityScore (with_trend item stable) patterns allAssessments
     <= calculatePriorityScore (with_trend item improving) patterns allAssessments.
Proof.
  unfold calculatePriorityScore.
  cbn [with_trend ca_value ca_pattern ca_field].
  pose proof (historicalWeight_bounds (length allAssessments)) as Hw.
  revert Hw. generalize (Rmin (INR (length allAssessments) / 10) (3 / 10)).
  intros hw Hw.
  destruct (ca_pattern item) as [p|]; cbn [fmap option_fmap option_map];
    [|split; apply Rle_refl].
  cbn [trend consistency average].
  rewrite (decide_False (P := declining = improving)) by discriminate.
  rewrite (decide_True (P := declining = declining)) by reflexivity.
  rewrite (decide_False (P := stable = improving)) by discriminate.
  rewrite (decide_False (P := stable = declining)) by discriminate.
  rewrite (decide_True (P := improving = improving)) by reflexivity.
  split; apply clamp_mono; repeat case_decide; try lra; nra.
Qed.

(** ** More on the selection *)

Section SelectionShape.
Context (latest : AssessmentData) (pats : gmap string Pattern)
        (all : list AssessmentData).

Let scored := scoredAreas latest pats all.

Lemma ranked_names_NoDup (cmp : ScoredArea -> ScoredArea -> R)
    (P : ScoredArea -> Prop) `{!forall x, Decision (P x)} :
  NoDup (area_name <$> take 3 (js_sort cmp (filter P scored))).
Proof.
  eapply sublist_NoDup; [|apply fmap_sublist, sublist_take].
  rewrite (js_sort_perm cmp).
  eapply sublist_NoDup; [|apply fmap_sublist, sublist_filter].
  apply scoredAreas_names_NoDup.
Qed.


Lemma ranked_strengths_item (x : ScoredArea) :
  x ∈ ranked_strengths scored ->
  exists c, c ∈ cognitiveAreas latest pats /\ sa_item x = c.
Proof.
  intros Hx. apply ranked_strengths_elem in Hx as [Hx _].
  apply list_elem_of_fmap in Hx as (c & -> & Hc). by exists c.
Qed.

Lemma ranked_weaknesses_item (x : ScoredArea) :
  x ∈ ranked_weaknesses scored ->
  exists c, c ∈ cognitiveAreas latest pats /\ sa_item x = c.
Proof.
  intros Hx. apply ranked_weaknesses_elem in Hx as [Hx _].
  apply list_elem_of_fmap in Hx as (c & -> & Hc). by exists c.
Qed.
End SelectionShape.



(** X24: within each list every area is named once, and each entry pairs
    the area with the text fixed for it in the table of cognitive areas: the
    strength description in the strengths, the growth description in the
    weaknesses. *)
Theorem selection_entries_from_table (w : World) (userId : string)
    (latest : AssessmentData) (rest : list AssessmentData) (formatted : string) :
  error (select_assessments w userId) = None ->
  data (select_assessments w userId) = Some (latest :: rest) ->
  format_date w (completed_at latest) = Some formatted ->
  let areas := cognitiveAreas latest (analyzeHistoricalPatterns (latest :: rest)) in
  exists r t,
    exec (getStrengthsAndWeaknesses w userId) = (Returned r, t)
    /\ NoDup (map area (strengths r))
    /\ NoDup (map area (weaknesses r))
    /\ (forall i, i ∈ strengths r ->
          exists c, c ∈ areas
            /\ i = mkInsight (ca_area c) (ca_strengthDescription c))
    /\ (forall i, i ∈ weaknesses r ->
          exists c, c ∈ areas
            /\ i = mkInsight (ca_area c) (ca_growthDescription c)).
Proof.
  intros He Hd Hf areas.
  destruct (getStrengthsAndWeaknesses_analysis w userId latest rest formatted He Hd Hf)
    as (r & t & Hrun & Hs & Hw & _).
  rewrite final_strengths in Hs. rewrite final_weaknesses in Hw.
  exists r, t. split; [exact Hrun|].
  rewrite Hs, Hw. repeat split.
  - rewrite map_map. apply ranked_names_NoDup.
  - rewrite map_map. apply ranked_names_NoDup.
  - intros i Hi. apply list_elem_of_fmap in Hi as (x & -> & Hx).
    apply ranked_strengths_item in Hx as (c & Hc & Hxc).
    exists c. split; [exact Hc|]. unfold strength_insight. by rewrite Hxc.
  - intros i Hi. apply list_elem_of_fmap in Hi as (x & -> & Hx).
    apply ranked_weaknesses_item in Hx as (c & Hc & Hxc).
    exists c. split; [exact Hc|]. unfold growth_insight. by rewrite Hxc.
Qed.

Lemma selection_entries_from_table_witness :
  data (select_assessments low_world "user-1") = Some (low_latest :: low_rest)
  /\ exists r t,
    exec (getStrengthsAndWeaknesses low_world "user-1") = (Returned r, t)
    /\ NoDup (map area (strengths r))
    /\ NoDup (map area (weaknesses r))
    /\ (forall i, i ∈ strengths r ->
          exists c, c ∈ cognitiveAreas low_latest
                          (analyzeHistoricalPatterns (low_latest :: low_rest))
            /\ i = mkInsight (ca_area c) (ca_strengthDescription c))
    /\ (forall i, i ∈ weaknesses r ->
          exists c, c ∈ cognitiveAreas low_latest
                          (analyzeHistoricalPatterns (low_latest :: low_rest))
            /\ i = mkInsight (ca_area c) (ca_growthDescription c)).
Proof.
  split; [reflexivity|].
  apply (selection_entries_from_table low_world "user-1" low_latest low_rest
           "01/01/2024"); reflexivity.
Defined.

(** ** The order of the strengths *)

Section SortingWhenComparable.
Context {A : Type} (cmp : A -> A -> R) (key : A -> R).

Let key_ge (a b : A) : Prop := key a >= key b.

Lemma sort_insert_descending (x : A) (l : list A) :
  (forall y, y ∈ l ->
     (cmp x y <= 0 -> key x >= key y) /\ (~ cmp x y <= 0 -> key y >= key x)) ->
  StronglySorted key_ge l -> StronglySorted key_ge (sort_insert cmp x l).
Proof.
  intros Hcmp Hs. induction Hs as [|y l Hl IH Hy]; cbn [sort_insert].
  - repeat constructor.
  - destruct (Hcmp y (list_elem_of_here _ _)) as [Hle Hgt].
    case_decide as Hc.
    + constructor; [by constructor|].
      constructor; [by apply Hle|].
      eapply Forall_impl; [exact Hy|]. unfold key_ge. intros z Hz.
      specialize (Hle Hc). lra.
    + constructor.
      * apply IH. intros z Hz. apply Hcmp. by right.
      * rewrite sort_insert_perm. constructor; [by apply Hgt | exact Hy].
Qed.

Lemma js_sort_descending (l : list A) :
  (forall x y, x ∈ l -> y ∈ l ->
     (cmp x y <= 0 -> key x >= key y) /\ (~ cmp x y <= 0 -> key y >= key x)) ->
  StronglySorted key_ge (js_sort cmp l).
Proof.
  induction l as [|x l IH]; intros Hcmp; [constructor|].
  change (js_sort cmp (x :: l)) with (sort_insert cmp x (js_sort cmp l)).
  apply sort_insert_descending.
  - intros y Hy. apply js_sort_elem_of in Hy.
    apply Hcmp; [apply list_elem_of_here | by apply list_elem_of_further].
  - apply IH. intros a b Ha Hb.
    apply Hcmp; by apply list_elem_of_further.
Qed.
End SortingWhenComparable.

Lemma strength_cmp_far (x y : ScoredArea) :
  Rabs (priorityScore x - priorityScore y) > 5 ->
  (strength_cmp x y <= 0 -> priorityScore x >= priorityScore y)
  /\ (~ strength_cmp x y <= 0 -> priorityScore y >= priorityScore x).
Proof.
  intros Hfar. unfold strength_cmp. rewrite decide_True by done. split; lra.
Qed.

Lemma strength_cmp_same (x : ScoredArea) :
  (strength_cmp x x <= 0 -> priorityScore x >= priorityScore x)
  /\ (~ strength_cmp x x <= 0 -> priorityScore x >= priorityScore x).
Proof. split; intros _; lra. Qed.

(** X25: when any two different dimensions scoring at least 70 have scores
    more than 5 apart, so that the consistency tie-break never applies, the
    strengths come in descending order of priority score, and every
    qualifying dimension left out scores no higher than any that is listed. *)
Theorem strengths_descending_when_apart (w : World) (userId : string)
    (latest : AssessmentData) (rest : list AssessmentData) (formatted : string) :
  error (select_assessments w userId) = None ->
  data (select_assessments w userId) = Some (latest :: rest) ->
  format_date w (completed_at latest) = Some formatted ->
  let all := latest :: rest in
  let scored := scoredAreas latest (analyzeHistoricalPatterns all) all in
  (forall x y, x ∈ scored -> y ∈ scored ->
     area_name x <> area_name y ->
     priorityScore x >= STRENGTH_THRESHOLD ->
     priorityScore y >= STRENGTH_THRESHOLD ->
     Rabs (priorityScore x - priorityScore y) > 5) ->
  exists r t ranked,
    exec (getStrengthsAndWeaknesses w userId) = (Returned r, t)
    /\ strengths r = map strength_insight ranked
    /\ StronglySorted (fun a b => priorityScore a >= priorityScore b) ranked
    /\ (forall x y,
          x ∈ ranked -> y ∈ scored ->
          priorityScore y >= STRENGTH_THRESHOLD -> y ∉ ranked ->
          priorityScore x >= priorityScore y).
Proof.
  intros He Hd Hf all scored Hapart.
  destruct (getStrengthsAndWeaknesses_analysis w userId latest rest formatted He Hd Hf)
    as (r & t & Hrun & Hs & _ & _).
  rewrite final_strengths in Hs. fold all in Hs. fold scored in Hs.
  set (qualifying := filter (fun x => isStrength x = true) scored).
  set (sorted := js_sort strength_cmp qualifying).
  assert (Hq : forall x, x ∈ qualifying ->
                 x ∈ scored /\ priorityScore x >= STRENGTH_THRESHOLD).
  { intros x [Hflag Hx]%list_elem_of_filter. split; [exact Hx|].
    destruct (scoredAreas_flags _ _ _ x Hx) as [Hst _].
    rewrite Hst in Hflag. by apply bool_decide_eq_true in Hflag. }
  assert (Hsorted : StronglySorted (fun a b => priorityScore a >= priorityScore b) sorted).
  { apply (js_sort_descending strength_cmp priorityScore).
    intros x y Hx Hy.
    destruct (Hq x Hx) as [Hxs Hxh]. destruct (Hq y Hy) as [Hys Hyh].
    destruct (decide (area_name x = area_name y)) as [Heq|Hne].
    - assert (x = y) as -> by
        (by apply (scoredAreas_name_inj latest (analyzeHistoricalPatterns all) all)).
      apply strength_cmp_same.
    - apply strength_cmp_far. by apply Hapart. }
  exists r, t, (take 3 sorted). split; [exact Hrun|].
  split; [exact Hs|]. split.
  - rewrite <- (take_drop 3 sorted) in Hsorted.
    clear -Hsorted. revert Hsorted. generalize (take 3 sorted) (drop 3 sorted).
    intros l1 l2. induction l1 as [|a l1 IH]; cbn [app]; intros Hs; [constructor|].
    apply StronglySorted_inv in Hs as [Hs Ha]. constructor; [by apply IH|].
    apply Forall_app in Ha. tauto.
  - intros x y Hx Hy Hyh Hyout.
    rewrite <- (take_drop 3 sorted) in Hsorted.
    apply (StronglySorted_app_le _ _ _ Hsorted); [exact Hx|].
    assert (Hys : y ∈ sorted).
    { unfold sorted. apply js_sort_elem_of. apply list_elem_of_filter. split; [|exact Hy].
      destruct (scoredAreas_flags _ _ _ y Hy) as [-> _]. by apply bool_decide_eq_true. }
    rewrite <- (take_drop 3 sorted) in Hys.
    apply elem_of_app in Hys as [Hys|Hys]; [by destruct Hyout | exact Hys].
Qed.

Lemma two_high_scores (x : ScoredArea) :
  x ∈ two_high_scored ->
  (area_name x = "Creativity"%string /\ priorityScore x = 972 / 10)
  \/ (area_name x = "Problem Solving"%string /\ priorityScore x = 872 / 10)
  \/ priorityScore x < STRENGTH_THRESHOLD.
Proof.
  intros Hx. apply list_elem_of_fmap in Hx as (item & -> & Hitem).
  cbn [priorityScore area_name sa_item].
  destruct (single_record_area two_high_assessment item Hitem) as [_ Hscore].
  rewrite Hscore. clear Hscore. unfold STRENGTH_THRESHOLD.
  unfold cognitiveAreas in Hitem.
  repeat (apply elem_of_cons in Hitem as [->|Hitem]);
    [ left | right; left | right; right .. | by apply elem_of_nil in Hitem ];
    cbn [ca_area ca_value two_high_assessment creativity_score problem_solving
         pattern_recognition focus_duration task_switching emotional_regulation
         organization time_awareness];
    rewrite decide_False by lra;
    rewrite Rmin_right by lra; rewrite Rmax_right by lra;
    try split; try reflexivity; lra.
Qed.

Lemma two_high_apart (x y : ScoredArea) :
  x ∈ two_high_scored -> y ∈ two_high_scored ->
  area_name x <> area_name y ->
  priorityScore x >= STRENGTH_THRESHOLD ->
  priorityScore y >= STRENGTH_THRESHOLD ->
  Rabs (priorityScore x - priorityScore y) > 5.
Proof.
  intros Hx Hy Hne Hxh Hyh.
  destruct (two_high_scores x Hx) as [[Hxn Hxs]|[[Hxn Hxs]|Hxl]]; [| |lra];
    destruct (two_high_scores y Hy) as [[Hyn Hys]|[[Hyn Hys]|Hyl]]; try lra;
    try congruence; rewrite Hxs, Hys.
  - rewrite Rabs_right; lra.
  - rewrite Rabs_left; lra.
Qed.

Lemma strengths_descending_when_apart_witness :
  data (select_assessments two_high_world "user-1") = Some [two_high_assessment]
  /\ exists r t ranked,
    exec (getStrengthsAndWeaknesses two_high_world "user-1") = (Returned r, t)
    /\ strengths r = map strength_insight ranked
    /\ StronglySorted (fun a b => priorityScore a >= priorityScore b) ranked
    /\ (forall x y,
          x ∈ ranked -> y ∈ two_high_scored ->
          priorityScore y >= STRENGTH_THRESHOLD -> y ∉ ranked ->
          priorityScore x >= priorityScore y).
Proof.
  split; [reflexivity|].
  apply (strengths_descending_when_apart two_high_world "user-1"
           two_high_assessment [] "01/01/2024" eq_refl eq_refl eq_refl).
  exact two_high_apart.
Defined.

(** ** The bonus for an improving weakness, on a run *)

Lemma improving_creativity_pattern :
  analyzeHistoricalPatterns improving_assessments !! "creativity_score"
  = Some {| average := 40; trend := improving; consistency := 90 |}.
Proof.
  change "creativity_score"%string with (field_name f_creativity_score).
  rewrite (analyzeHistoricalPatterns_lookup improving_assessments f_creativity_score)
    by discriminate.
  f_equal. unfold field_pattern.
  cbn [improving_assessments map length get_field sample_assessment creativity_score].
  rewrite decide_True by lia.
  cbn [Nat.div Nat.divmod fst take drop length].
  unfold reduce_sum, reduce_sq_dev. cbn [foldl INR].
  rewrite decide_True by lra.
  replace ((0 + 30 + 30 + 50 + 50) / (1 + 1 + 1 + 1)) with 40 by lra.
  replace ((0 + (30 - 40) ^ 2 + (30 - 40) ^ 2 + (50 - 40) ^ 2 + (50 - 40) ^ 2)
           / (1 + 1 + 1 + 1)) with (10 * 10) by lra.
  rewrite sqrt_square by lra.
  replace (100 - 10) with 90 by lra.
  by rewrite Rmax_right by lra.
Qed.

Lemma improving_other_pattern (f : CognitiveField) :
  f <> f_creativity_score ->
  analyzeHistoricalPatterns improving_assessments !! field_name f
  = Some {| average := 40; trend := stable; consistency := 100 |}.
Proof.
  intros Hf. apply constant_dimension_lookup; [discriminate|].
  intros a Ha. unfold improving_assessments in Ha.
  repeat (apply elem_of_cons in Ha as [->|Ha]);
    [ by destruct f .. | by apply elem_of_nil in Ha ].
Qed.

(** Finish the evaluation of a priority score on the four sample records,
    once the pattern of the area is known. *)
Ltac evaluate_score :=
  unfold calculatePriorityScore;
  cbn [ca_pattern ca_value ca_field trend consistency average
       improving_assessments length take map get_field sample_assessment nth
       creativity_score problem_solving pattern_recognition focus_duration
       task_switching emotional_regulation organization time_awareness
       Nat.sub INR];
  repeat first
    [ rewrite decide_True by first [ lia | lra | reflexivity ]
    | rewrite decide_False by first [ lia | lra | discriminate ] ];
  rewrite (Rmin_right ((1 + 1 + 1 + 1) / 10)) by lra;
  rewrite Rmin_right by lra; rewrite Rmax_right by lra; lra.

Lemma improving_scores (x : ScoredArea) :
  x ∈ improving_scored ->
  (area_name x = "Creativity"%string
   /\ priorityScore x = 451 / 10
   /\ claimed_adjusted_key (analyzeHistoricalPatterns improving_assessments) x
      = 551 / 10)
  \/ (area_name x <> "Creativity"%string
      /\ priorityScore x = 456 / 10
      /\ claimed_adjusted_key (analyzeHistoricalPatterns improving_assessments) x
         = 456 / 10).
Proof.
  intros Hx. unfold improving_scored in Hx.
  apply list_elem_of_fmap in Hx as (item & -> & Hitem).
  unfold claimed_adjusted_key. cbn [priorityScore area_name sa_item].
  unfold cognitiveAreas in Hitem.
  repeat (apply elem_of_cons in Hitem as [->|Hitem]);
    [ left | right .. | by apply elem_of_nil in Hitem ];
    cbn [ca_area ca_field field_name].
  1: { rewrite improving_creativity_pattern. cbn [trend].
    rewrite (decide_True (P := improving = improving)) by reflexivity.
    assert (Hs : calculatePriorityScore
              {| ca_field := f_creativity_score;
                 ca_value := creativity_score (sample_assessment 30 40);
                 ca_pattern := Some {| average := 40; trend := improving;
                                       consistency := 90 |};
                 ca_area := "Creativity";
                 ca_strengthDescription :=
                   "You excel at generating original ideas and thinking outside the box.";
                 ca_growthDescription :=
                   "Focus on developing creative thinking and innovative problem-solving approaches." |}
              (analyzeHistoricalPatterns improving_assessments) improving_assessments
            = 451 / 10) by evaluate_score.
    rewrite Hs. repeat split; lra. }
  all: match goal with
       | |- context [ {| ca_field := ?f; ca_value := _ |} ] =>
           let Hp := fresh "Hp" in
           assert (Hp := improving_other_pattern f ltac:(discriminate));
           cbn [field_name] in Hp; rewrite !Hp
       end;
       (split; [discriminate|]); cbn [trend];
       rewrite (decide_False (P := stable = improving)) by discriminate;
       match goal with
       | |- ?s = _ /\ _ => assert (Hs : s = 456 / 10) by evaluate_score
       end;
       rewrite Hs; split; lra.
Qed.

Lemma filter_all {A : Type} (P : A -> Prop) `{!forall x, Decision (P x)} (l : list A) :
  (forall x, x ∈ l -> P x) -> filter P l = l.
Proof.
  induction l as [|x l IH]; intros Hall; [reflexivity|].
  rewrite filter_cons, decide_True by (apply Hall; by left).
  f_equal. apply IH. intros y Hy. apply Hall. by right.
Qed.

(** On the four sample records creativity has the lowest priority score of
    all eight dimensions, all of them below the threshold; its improving
    trend adds 10 to its key, which puts it behind the seven others, so the
    three weaknesses returned do not include it. *)
Example improving_weakness_pushed_back :
  exists r t,
    exec (getStrengthsAndWeaknesses improving_world "user-1") = (Returned r, t)
    /\ length (weaknesses r) = 3%nat
    /\ ("Creativity"%string ∉ map area (weaknesses r))
    /\ (forall x y, x ∈ improving_scored -> y ∈ improving_scored ->
          area_name x = "Creativity"%string -> area_name y <> "Creativity"%string ->
          priorityScore x < priorityScore y < STRENGTH_THRESHOLD).
Proof.
  pose proof (getStrengthsAndWeaknesses_run improving_world "user-1"
                (sample_assessment 30 40)
                [sample_assessment 30 40; sample_assessment 50 40; sample_assessment 50 40]
                "01/01/2024" eq_refl eq_refl eq_refl) as Hrun.
  cbv zeta in Hrun.
  destruct (selected_weaknesses_order (sample_assessment 30 40) improving_assessments)
    as (sorted & Hperm & Hsorted & Hw & Hout).
  fold improving_scored in Hperm, Hout.
  do 2 eexists. split; [exact Hrun|]. cbn [weaknesses].
  fold improving_assessments.
  assert (Hlow : forall x, x ∈ improving_scored -> priorityScore x < STRENGTH_THRESHOLD).
  { intros x Hx. unfold STRENGTH_THRESHOLD.
    destruct (improving_scores x Hx) as [(_ & -> & _)|(_ & -> & _)]; lra. }
  assert (Hlen : length sorted = 8%nat).
  { rewrite Hperm, filter_all by exact Hlow. reflexivity. }
  split; [|split].
  - rewrite Hw, length_map, length_take. lia.
  - intros Hc.
    assert (Hall : forall name, name ∈ map area_name improving_scored ->
                     name ∈ map area (selected_weaknesses (sample_assessment 30 40)
                                        improving_assessments)).
    { intros name Hname. apply list_elem_of_fmap in Hname as (y & -> & Hy).
      destruct (decide (area_name y
                        ∈ map area (selected_weaknesses (sample_assessment 30 40)
                                      improving_assessments))) as [|Hyout]; [done|].
      exfalso.
      assert (Hcx : exists x, x ∈ improving_scored /\ area_name x = "Creativity"%string).
      { eexists. split; [apply list_elem_of_here | reflexivity]. }
      destruct Hcx as (x & Hx & Hxn).
      assert (Hkey := Hout x y Hx Hy (Hlow y Hy)).
      rewrite Hxn in Hkey. specialize (Hkey Hc Hyout).
      destruct (improving_scores x Hx) as [(_ & _ & Hkx)|(Hne & _)]; [|done].
      destruct (improving_scores y Hy) as [(Hyn & _)|(_ & _ & Hky)].
      - apply Hyout. by rewrite Hyn.
      - rewrite Hkx, Hky in Hkey. lra. }
    apply NoDup_submseteq in Hall; [|apply scoredAreas_names_NoDup].
    apply submseteq_length in Hall.
    rewrite Hw, !length_map, length_take in Hall.
    change (length improving_scored) with 8%nat in Hall. lia.
  - intros x y Hx Hy Hxn Hyn. unfold STRENGTH_THRESHOLD.
    destruct (improving_scores x Hx) as [(_ & -> & _)|(Hne & _)]; [|done].
    destruct (improving_scores y Hy) as [(Hyc & _)|(_ & -> & _)]; [done|]. lra.
Qed.


(** ** The pattern analysis in double precision *)

Lemma Doubles_lookup (Math_pow_2 : PrimFloat.float -> PrimFloat.float)
    (assessments : list Doubles.AssessmentData) (f : CognitiveField) :
  assessments <> [] ->
  Doubles.analyzeHistoricalPatterns Math_pow_2 assessments !! field_name f
  = Some (Doubles.field_pattern Math_pow_2 assessments f).
Proof.
  intros Hne. unfold Doubles.analyzeHistoricalPatterns.
  case_decide as Hlen.
  - destruct assessments; [done | discriminate Hlen].
  - unfold cognitiveFields. cbn [foldl].
    destruct f; cbn [field_name]; by simplify_map_eq.
Qed.

Lemma foldl_add_map (g : PrimFloat.float -> PrimFloat.float)
    (values : list PrimFloat.float) (acc : PrimFloat.float) :
  foldl (fun sum val => PrimFloat.add sum (g val)) acc values
  = foldl (fun sum val => PrimFloat.add sum val) acc (map g values).
Proof.
  revert acc. induction values as [|v values IH]; intros acc; [reflexivity|].
  cbn [map foldl]. apply IH.
Qed.

Lemma Doubles_reduce_sq_dev (Math_pow_2 : PrimFloat.float -> PrimFloat.float)
    (avg : PrimFloat.float) (values : list PrimFloat.float) :
  Doubles.reduce_sq_dev Math_pow_2 avg values
  = Doubles.reduce_sum (map (fun v => Math_pow_2 (PrimFloat.sub v avg)) values).
Proof.
  unfold Doubles.reduce_sq_dev, Doubles.reduce_sum.
  apply (foldl_add_map (fun v => Math_pow_2 (PrimFloat.sub v avg))).
Qed.

(** C3 as stated fails where the exact half means differ by exactly 5.  For
    the creativity scores 77, 20, 85, 54, 90, 53 the means are 182/3 and
    197/3: the second does not exceed the first by more than 5, so the claim
    gives stable; in doubles 182/3 + 5 rounds below 197/3 and the code
    returns improving.  For 6, 6, 5, 1, 1, 0 the claim gives stable and the
    code declining. *)
Lemma trend_rounds_past_the_threshold :
  (mean (map IZR (drop 3 Doubles.boundary_scores))
   - mean (map IZR (take 3 Doubles.boundary_scores)) = 5
   /\ claimed_trend (map IZR Doubles.boundary_scores) = stable
   /\ Doubles.trend
        <$> (Doubles.analyzeHistoricalPatterns Doubles.square
               (Doubles.creativity_records Doubles.boundary_scores)
             !! "creativity_score")
      = Some improving)
  /\ (claimed_trend (map IZR Doubles.boundary_scores_down) = stable
      /\ Doubles.trend
           <$> (Doubles.analyzeHistoricalPatterns Doubles.square
                  (Doubles.creativity_records Doubles.boundary_scores_down)
                !! "creativity_score")
         = Some declining).
Proof.
  assert (Hreal : forall zs : list Z,
            length zs = 6%nat ->
            mean (map IZR (drop 3 zs)) - mean (map IZR (take 3 zs)) <= 5 ->
            mean (map IZR (take 3 zs)) - mean (map IZR (drop 3 zs)) <= 5 ->
            claimed_trend (map IZR zs) = stable).
  { intros zs Hlen H1 H2. unfold claimed_trend.
    rewrite length_map, Hlen. rewrite decide_False by lia.
    change (6 / 2)%nat with 3%nat.
    change (map IZR zs) with (IZR <$> zs).
    rewrite <- !fmap_take, <- !fmap_drop.
    change (IZR <$> ?l) with (map IZR l).
    rewrite !decide_False by lra. reflexivity. }
  assert (Hup : mean (map IZR (drop 3 Doubles.boundary_scores))
                - mean (map IZR (take 3 Doubles.boundary_scores)) = 5).
  { unfold mean. cbn. lra. }
  assert (Hdown : mean (map IZR (take 3 Doubles.boundary_scores_down))
                  - mean (map IZR (drop 3 Doubles.boundary_scores_down)) = 5).
  { unfold mean. cbn. lra. }
  split; [split; [exact Hup | split]|split].
  - apply Hreal; [reflexivity | lra | lra].
  - vm_compute. reflexivity.
  - apply Hreal; [reflexivity | lra | lra].
  - vm_compute. reflexivity.
Qed.

(** C3 (amended to non-empty sequences and to the arithmetic the code
    performs): for every non-empty sequence of assessment records, in the
    order supplied, and each of the eight dimensions, the pattern returned
    has as average the mean in double precision (the sum taken from left to
    right, divided by the count); a stable trend below four records and
    otherwise, with the halves split at floor(n/2), improving when the mean
    of the second half is greater than the mean of the first half plus 5 as
    computed in doubles, declining when it is less than that mean minus 5 as
    computed in doubles, stable otherwise; and as consistency the maximum
    of 0 and 100 minus the square root of the double-precision mean of the
    squared deviations from the average. *)
Theorem analyzeHistoricalPatterns_in_doubles
    (Math_pow_2 : PrimFloat.float -> PrimFloat.float)
    (assessments : list Doubles.AssessmentData) (f : CognitiveField) :
  assessments <> [] ->
  Doubles.analyzeHistoricalPatterns Math_pow_2 assessments !! field_name f
  = Some (Doubles.double_pattern Math_pow_2 (map (Doubles.get_field f) assessments)).
Proof.
  intros Hne. rewrite Doubles_lookup by exact Hne. f_equal.
  unfold Doubles.field_pattern, Doubles.double_pattern.
  set (values := map (Doubles.get_field f) assessments).
  f_equal.
  - unfold Doubles.double_trend, Doubles.double_mean.
    repeat case_decide; try reflexivity; lia.
  - unfold Doubles.double_mean at 1.
    by rewrite Doubles_reduce_sq_dev, length_map.
Qed.

Lemma analyzeHistoricalPatterns_in_doubles_witness :
  Doubles.creativity_records Doubles.boundary_scores <> []
  /\ Doubles.analyzeHistoricalPatterns Doubles.square
       (Doubles.creativity_records Doubles.boundary_scores)
     !! field_name f_creativity_score
     = Some (Doubles.double_pattern Doubles.square
               (map (Doubles.get_field f_creativity_score)
                    (Doubles.creativity_records Doubles.boundary_scores))).
Proof.
  split; [discriminate|].
  apply (analyzeHistoricalPatterns_in_doubles Doubles.square
           (Doubles.creativity_records Doubles.boundary_scores) f_creativity_score).
  discriminate.
Defined.
